(** * Task Manager API (app/backend/app.py): a shallow embedding

    The Flask handlers of [app.py] are embedded as functions over an explicit
    database state.  Python values that arrive in a request are kept dynamic
    ([json]); the operations the handlers apply to them ([dict.get],
    subscripting, [in], truthiness, [str.replace], [str.lower]) follow Python's
    semantics, exceptions included.  A handler's [try]/[except Exception]
    becomes a match on the outcome of its body, and a rollback returns the
    state the handler started from.

    A handler takes what it reads from outside as arguments: the request
    that [request.get_json()] reads, the values of [request.args.get(…)],
    and one reading of the clock for each call of [datetime.utcnow] it
    causes.  Logging is left out.  [Column.contains] is the [LIKE] of
    SQLite, the database the module configures.

    What the repository calls but does not define — [datetime.fromisoformat]
    and the conversion of a bound value by the storage driver — is gathered
    in the class [Backend]; the properties hold for every instance of it. *)

From Stdlib Require Import ZArith Floats Ascii String.
From stdpp Require Import base option list gmap strings sorting.

#[local] Open Scope Z_scope.

(** ** Python values and exceptions *)

Module Py.

(** The value [request.get_json()] returns: [None] is [JNull].  A number is
    kept as an integer; the handlers only ever test a number for truth. *)
#[warnings="-register-all"]
Inductive json : Type :=
  | JNull
  | JBool (b : bool)
  | JNum (n : Z)
  | JStr (s : string)
  | JArr (l : list json)
  | JObj (m : gmap string json).

(** The exception classes that can occur in the handlers. *)
Inductive exn : Type :=
  | NotFound          (* werkzeug.exceptions.NotFound, raised by get_or_404 *)
  | ValueError
  | AttributeError
  | TypeError
  | KeyError
  | IntegrityError    (* a NOT NULL or UNIQUE constraint failed at commit *)
  | StatementError    (* the driver could not bind a value *)
  | BadRequest            (* werkzeug: the body is not a JSON document *)
  | UnsupportedMediaType. (* werkzeug: the request is not sent as JSON *)

(** A computation that returns or raises. *)
Inductive py (A : Type) : Type :=
  | Return (a : A)
  | Raise (e : exn).
Arguments Return {A} a.
Arguments Raise {A} e.

#[export] Instance py_ret : MRet py := λ A a, Return a.
#[export] Instance py_bind : MBind py := λ A B f c,
  match c with
  | Return a => f a
  | Raise e => Raise e
  end.

(** [bool(v)] *)
Definition truthy (v : json) : bool :=
  match v with
  | JNull => false
  | JBool b => b
  | JNum n => negb (n =? 0)
  | JStr s => negb (String.eqb s EmptyString)
  | JArr l => negb (Nat.eqb (length l) 0)
  | JObj m => negb (Nat.eqb (size m) 0)
  end.

(** [data.get(k)] and [data.get(k, d)]: only a dict has the method. *)
Definition get_d (data : json) (k : string) (d : json) : py json :=
  match data with
  | JObj m => Return (default d (m !! k))
  | _ => Raise AttributeError
  end.

Definition get (data : json) (k : string) : py json := get_d data k JNull.

(** [data[k]] for a string [k]. *)
Definition getitem (data : json) (k : string) : py json :=
  match data with
  | JObj m => match m !! k with Some v => Return v | None => Raise KeyError end
  | _ => Raise TypeError
  end.

(** [k in s] on strings: [k] occurs in [s]. *)
Fixpoint str_contains (k s : string) : bool :=
  if String.prefix k s then true
  else match s with
       | EmptyString => false
       | String _ s' => str_contains k s'
       end.

(** [k in data]: key of a dict, element of a list, substring of a string;
    [None], booleans and numbers are not iterable. *)
Definition contains (k : string) (data : json) : py bool :=
  match data with
  | JObj m => Return (bool_decide (is_Some (m !! k)))
  | JArr l => Return (existsb (λ v, match v with JStr s => String.eqb s k | _ => false end) l)
  | JStr s => Return (str_contains k s)
  | _ => Raise TypeError
  end.

(** [s.replace('Z', '+00:00')]: every occurrence is replaced. *)
Fixpoint replace_Z (s : string) : string :=
  match s with
  | EmptyString => EmptyString
  | String c s' =>
      if Ascii.eqb c "Z"%char then String.append "+00:00" (replace_Z s')
      else String c (replace_Z s')
  end.

(** [v.replace('Z', '+00:00')]: only a string has the method. *)
Definition replace (v : json) : py string :=
  match v with
  | JStr s => Return (replace_Z s)
  | _ => Raise AttributeError
  end.

(** [s.lower()] on the ASCII letters.  The handlers only compare the result
    with ['true'], and no character outside ASCII lowercases to one of its
    letters. *)
Definition lower_ascii (c : Ascii.ascii) : Ascii.ascii :=
  let n := Ascii.nat_of_ascii c in
  if (Nat.leb 65 n && Nat.leb n 90)%bool then Ascii.ascii_of_nat (n + 32) else c.

Fixpoint lower (s : string) : string :=
  match s with
  | EmptyString => EmptyString
  | String c s' => String (lower_ascii c) (lower s')
  end.

End Py.
Import Py.

(** ** Numbers of the statistics endpoint *)

(** A Python number: [int] or [float] (binary64). *)
Inductive number : Type :=
  | Int (n : Z)
  | Float (x : float).

(** [float(n)], correctly rounded. *)
Definition float_of_Z (n : Z) : float :=
  SF2Prim (binary_normalize prec emax n 0 false).

(** [a / b] on two [int]s, for counts below 2^53 (which convert exactly, so
    that the correctly rounded quotient of the floats is that of the ints). *)
Definition truediv (a b : Z) : float := (float_of_Z a / float_of_Z b)%float.

(** The integer nearest to [n / d] ([0 < d]), a tie going to the even one. *)
Definition round_half_even (n d : Z) : Z :=
  let q := n / d in
  let r := n mod d in
  if 2 * r <? d then q
  else if d <? 2 * r then q + 1
  else if Z.even q then q else q + 1.

(** The number of hundredths [round(x, 2)] keeps of a finite [x] of
    magnitude [m * 2^e]: float rounding goes through the shortest-decimal
    conversion, which rounds the exact binary value, ties to even. *)
Definition hundredths (m : positive) (e : Z) : Z :=
  if 0 <=? e then 100 * Z.pos m * 2 ^ e
  else round_half_even (100 * Z.pos m) (2 ^ (- e)).

(** [round(x, 2)] on a float: the double nearest to that many hundredths
    (exact through [float_of_Z] below 2^53 hundredths); an integral, zero,
    infinite or NaN [x] is returned as it is. *)
Definition round2 (x : float) : float :=
  match Prim2SF x with
  | S754_finite s m e =>
      if 0 <=? e then x
      else
        let r := (float_of_Z (hundredths m e) / 100)%float in
        if s then (- r)%float else r
  | _ => x
  end.

(** [round(v, 2)]: an [int] is returned unchanged. *)
Definition py_round2 (v : number) : number :=
  match v with
  | Int n => Int n
  | Float x => Float (round2 x)
  end.

(** ** Data model *)

(** A [datetime], as microseconds on the UTC time line. *)
Definition datetime : Type := Z.

Module Task.

(** A row of the [task] table.  [title] is [nullable=False]; the other text
    columns, [completed] and [due_date] may hold NULL ([None]). *)
Record row : Type := Row {
  id : Z;
  title : string;
  description : option string;
  completed : option bool;
  priority : option string;
  category : option string;
  due_date : option datetime;
  created_at : datetime;
  updated_at : datetime;
}.

(** A loaded [Task] instance: the handler assigns request values to its
    attributes, and they reach the columns only at commit. *)
Record obj : Type := Obj {
  o_id : Z;
  o_title : json;
  o_description : json;
  o_completed : json;
  o_priority : json;
  o_category : json;
  o_due_date : option datetime;
  o_created_at : datetime;
  o_updated_at : datetime;
}.

Definition text (c : option string) : json :=
  match c with Some s => JStr s | None => JNull end.

Definition boolean (c : option bool) : json :=
  match c with Some b => JBool b | None => JNull end.

Definition load (t : row) : obj :=
  {| o_id := id t;
     o_title := JStr (title t);
     o_description := text (description t);
     o_completed := boolean (completed t);
     o_priority := text (priority t);
     o_category := text (category t);
     o_due_date := due_date t;
     o_created_at := created_at t;
     o_updated_at := updated_at t |}.

(** Attribute assignment, [task.title = v] and the like. *)
Definition set_title (v : json) (o : obj) : obj :=
  Obj (o_id o) v (o_description o) (o_completed o) (o_priority o)
      (o_category o) (o_due_date o) (o_created_at o) (o_updated_at o).
Definition set_description (v : json) (o : obj) : obj :=
  Obj (o_id o) (o_title o) v (o_completed o) (o_priority o)
      (o_category o) (o_due_date o) (o_created_at o) (o_updated_at o).
Definition set_completed (v : json) (o : obj) : obj :=
  Obj (o_id o) (o_title o) (o_description o) v (o_priority o)
      (o_category o) (o_due_date o) (o_created_at o) (o_updated_at o).
Definition set_priority (v : json) (o : obj) : obj :=
  Obj (o_id o) (o_title o) (o_description o) (o_completed o) v
      (o_category o) (o_due_date o) (o_created_at o) (o_updated_at o).
Definition set_category (v : json) (o : obj) : obj :=
  Obj (o_id o) (o_title o) (o_description o) (o_completed o) (o_priority o)
      v (o_due_date o) (o_created_at o) (o_updated_at o).
Definition set_due_date (v : option datetime) (o : obj) : obj :=
  Obj (o_id o) (o_title o) (o_description o) (o_completed o) (o_priority o)
      (o_category o) v (o_created_at o) (o_updated_at o).
Definition set_updated_at (v : datetime) (o : obj) : obj :=
  Obj (o_id o) (o_title o) (o_description o) (o_completed o) (o_priority o)
      (o_category o) (o_due_date o) (o_created_at o) v.

End Task.

Module Category.

(** A row of the [category] table; [name] is unique and not NULL. *)
Record row : Type := Row {
  id : Z;
  name : string;
  color : option string;
  created_at : datetime;
}.

End Category.

(** The database: each table maps a primary key to its row. *)
Record db : Type := Db {
  tasks : gmap Z Task.row;
  categories : gmap Z Category.row;
}.

Definition set_tasks (f : gmap Z Task.row → gmap Z Task.row) (st : db) : db :=
  Db (f (tasks st)) (categories st).

Definition set_categories (f : gmap Z Category.row → gmap Z Category.row) (st : db) : db :=
  Db (tasks st) (f (categories st)).

(** The rowid an INSERT assigns to an INTEGER PRIMARY KEY: one more than the
    largest in the table, 1 in an empty table. *)
Definition next_id {A} (tbl : gmap Z A) : Z :=
  1 + foldr Z.max 0 ((map_to_list tbl).*1).

(** The rows of a table. *)
Definition rows {A} (tbl : gmap Z A) : list A := (map_to_list tbl).*2.

(** ** Responses *)

(** The [error] of a failure envelope: a fixed message, or [str(e)]. *)
Inductive error : Type :=
  | Msg (s : string)
  | Str (e : exn).

(** The JSON envelope of a response.  A task or category stands for its
    [to_dict()], which lists its columns one for one. *)
Inductive body : Type :=
  | Stats (total_tasks completed_tasks pending_tasks : Z) (completion_rate : number)
  | TaskList (count : nat) (tasks : list Task.row)
  | TaskBody (task : Task.row)
  | TaskMessage (message : string) (task : Task.row)
  | Message (message : string)
  | CategoryList (categories : list Category.row)
  | CategoryBody (category : Category.row)
  | Failure (e : error).

(** A response: the envelope and the HTTP status. *)
Definition response : Type := body * Z.

(** [success] of the envelope. *)
Definition success (r : response) : bool :=
  match r.1 with Failure _ => false | _ => true end.

(** [Model.query.get_or_404(k)] *)
Definition get_or_404 {A} (tbl : gmap Z A) (k : Z) : py A :=
  match tbl !! k with
  | Some r => Return r
  | None => Raise NotFound
  end.

(** The registered error handlers. *)
Definition not_found : response :=
  (Failure (Msg "Resource not found"), 404).
Definition internal_error : response :=
  (Failure (Msg "Internal server error"), 500).

(** What Flask makes of a view that has no [try] of its own: an escaping
    [NotFound] goes to the 404 handler, any other exception to the 500 one. *)
Definition dispatch (r : py response) : response :=
  match r with
  | Return resp => resp
  | Raise NotFound => not_found
  | Raise _ => internal_error
  end.

(** ** [Column.contains] on SQLite *)

(** The database is SQLite ([SQLALCHEMY_DATABASE_URI]), and
    [column.contains(s)] is the SQL [column LIKE '%' || s || '%'], with no
    escape character. *)

Definition is_lead_byte (c : Ascii.ascii) : bool :=
  Nat.leb 192 (Ascii.nat_of_ascii c).

Definition is_continuation (c : string) : bool :=
  match c with
  | String b EmptyString =>
      Nat.leb 128 (Ascii.nat_of_ascii b) && negb (is_lead_byte b)
  | _ => false
  end.

(** The continuation bytes at the head of a list of characters, joined, and
    the characters after them. *)
Fixpoint continuation (chars : list string) : string * list string :=
  match chars with
  | c :: chars' =>
      if is_continuation c
      then let '(k, rest) := continuation chars' in (String.append c k, rest)
      else (EmptyString, chars)
  | [] => (EmptyString, [])
  end.

(** The characters of a text, as SQLite reads UTF-8: a byte of 0xC0 or more
    takes the continuation bytes (0x80 to 0xBF) that follow it, any other
    byte is a character of its own. *)
Fixpoint utf8_chars (s : string) : list string :=
  match s with
  | EmptyString => []
  | String b s' =>
      if is_lead_byte b
      then let '(k, rest) := continuation (utf8_chars s') in String b k :: rest
      else String b EmptyString :: utf8_chars s'
  end.

(** [text LIKE pattern]: [%] stands for any run of characters, [_] for any
    one character, and any other character for itself, an ASCII letter for
    both of its cases ([lower] on one character: SQLite folds the case of the
    ASCII letters only). *)
Fixpoint like (pattern text : list string) : bool :=
  match pattern with
  | [] => match text with [] => true | _ => false end
  | p :: pattern' =>
      if String.eqb p "%" then
        (fix skip (text : list string) : bool :=
           like pattern' text
           || match text with
              | [] => false
              | _ :: text' => skip text'
              end) text
      else
        match text with
        | [] => false
        | c :: text' =>
            (String.eqb p "_" || String.eqb (lower p) (lower c))
            && like pattern' text'
        end
  end.

(** [column.contains(s)] on a text column that is not NULL. *)
Definition text_contains (column s : string) : bool :=
  like (utf8_chars (String.append "%" (String.append s "%"))) (utf8_chars column).

(** ** The body of a request *)

(** What a request offers to [request.get_json()]: a JSON document sent as
    [application/json]; a body sent as JSON that is empty or is not a JSON
    document; or a request that is not sent as JSON, with or without a
    body. *)
Inductive request : Type :=
  | Json (data : json)
  | BadJson
  | NoJson.

(** [request.get_json()]: the document, [None] for the document [null]; it
    raises when there is no document to read, [BadRequest] for a body sent
    as JSON that does not parse and, since Flask 2.1, [UnsupportedMediaType]
    for a request that is not sent as JSON (an earlier Flask returns [None]
    there, which is the case [Json JNull]). *)
Definition get_json (req : request) : py json :=
  match req with
  | Json data => Return data
  | BadJson => Raise BadRequest
  | NoJson => Raise UnsupportedMediaType
  end.

(** ** What the handlers call outside the repository *)

Class Backend : Type := {
  (** [datetime.fromisoformat]; [None] when it raises [ValueError]. *)
  fromisoformat : string → option datetime;
  (** What a text column holds once the driver has bound a value ([Some None]
      is NULL); [None] when the driver rejects the value. *)
  bind_text : json → option (option string);
  (** The same for a Boolean column. *)
  bind_boolean : json → option (option bool);
  (** A string is stored as it is, [None] as NULL, a [bool] as it is. *)
  bind_text_str : ∀ s, bind_text (JStr s) = Some (Some s);
  bind_text_null : bind_text JNull = Some None;
  bind_boolean_bool : ∀ b, bind_boolean (JBool b) = Some (Some b);
  bind_boolean_null : bind_boolean JNull = Some None;
}.

Section Handlers.
Context `{Backend}.

Definition py_fromisoformat (s : string) : py datetime :=
  match fromisoformat s with
  | Some d => Return d
  | None => Raise ValueError
  end.

(** [datetime.fromisoformat(data['due_date'].replace('Z', '+00:00'))] *)
Definition parse_due_date (data : json) : py datetime :=
  v ← getitem data "due_date";
  s ← replace v;
  py_fromisoformat s.

Definition bind_param {A} (c : option (option A)) : py (option A) :=
  match c with
  | Some v => Return v
  | None => Raise StatementError
  end.

Definition not_null {A} (c : option A) : py A :=
  match c with
  | Some v => Return v
  | None => Raise IntegrityError
  end.

(** On INSERT an attribute that is [None] takes the column's [default]. *)
Definition or_default (v d : json) : json :=
  match v with
  | JNull => d
  | _ => v
  end.

(** [db.session.add(Task(title=…, description=…, priority=…, category=…,
    due_date=…)); db.session.commit()]: the INSERT.  [completed] takes its
    default; [created_at] and [updated_at] each call their own
    [default=datetime.utcnow], which read [now_c] and [now_u]. *)
Definition insert_task (now_c now_u : datetime)
    (title description priority category : json) (due_date : option datetime)
    (tbl : gmap Z Task.row) : py Task.row :=
  title ← bind_param (bind_text title) ≫= not_null;
  description ← bind_param (bind_text description);
  priority ← bind_param (bind_text (or_default priority (JStr "medium")));
  category ← bind_param (bind_text (or_default category (JStr "general")));
  mret (Task.Row (next_id tbl) title description (Some false) priority category
                 due_date now_c now_u).

(** [db.session.commit()] with a modified [Task]: the UPDATE. *)
Definition flush_task (o : Task.obj) : py Task.row :=
  title ← bind_param (bind_text (Task.o_title o)) ≫= not_null;
  description ← bind_param (bind_text (Task.o_description o));
  completed ← bind_param (bind_boolean (Task.o_completed o));
  priority ← bind_param (bind_text (Task.o_priority o));
  category ← bind_param (bind_text (Task.o_category o));
  mret (Task.Row (Task.o_id o) title description completed priority category
                 (Task.o_due_date o) (Task.o_created_at o) (Task.o_updated_at o)).

(** [db.session.add(Category(name=…, color=…)); db.session.commit()]: the
    INSERT, which fails on a name the table already holds. *)
Definition insert_category (now : datetime) (name color : json)
    (tbl : gmap Z Category.row) : py Category.row :=
  name ← bind_param (bind_text name) ≫= not_null;
  color ← bind_param (bind_text (or_default color (JStr "#3B82F6")));
  if bool_decide (name ∈ Category.name <$> rows tbl) then Raise IntegrityError
  else mret (Category.Row (next_id tbl) name color now).

(** *** GET /api/stats *)
Definition stats (st : db) : response :=
  let total := Z.of_nat (length (rows (tasks st))) in
  let completed :=
    Z.of_nat (length (filter (λ t, Task.completed t = Some true) (rows (tasks st)))) in
  let pending := total - completed in
  (Stats total completed pending
     (py_round2 (if 0 <? total then Float (truediv completed total * 100)%float
                 else Int 0)),
   200).

(** *** GET /api/tasks *)

(** [if v:] on a query parameter: present and not empty. *)
Definition given (v : option string) : bool :=
  match v with
  | Some s => negb (String.eqb s EmptyString)
  | None => false
  end.

(** [order_by(Task.created_at.desc())] *)
Definition created_desc (t1 t2 : Task.row) : Prop :=
  Task.created_at t2 ≤ Task.created_at t1.

#[export] Instance created_desc_dec t1 t2 : Decision (created_desc t1 t2) :=
  decide (Task.created_at t2 ≤ Task.created_at t1).

(** [Task.title.contains(search) | Task.description.contains(search)]; a
    NULL description matches nothing. *)
Definition search_matches (search : string) (t : Task.row) : bool :=
  text_contains (Task.title t) search
  || from_option (λ d, text_contains d search) false (Task.description t).

Definition get_tasks (category priority completed search : option string)
    (st : db) : response :=
  let query := rows (tasks st) in
  let query :=
    if given category
    then filter (λ t, Task.category t = category) query else query in
  let query :=
    if given priority
    then filter (λ t, Task.priority t = priority) query else query in
  let query :=
    match completed with
    | Some completed =>
        let completed_bool := String.eqb (lower completed) "true" in
        filter (λ t, Task.completed t = Some completed_bool) query
    | None => query
    end in
  let query :=
    match search with
    | Some s =>
        if given search then filter (λ t, search_matches s t = true) query
        else query
    | None => query
    end in
  let tasks := merge_sort created_desc query in
  (TaskList (length tasks) tasks, 200).

(** *** GET /api/tasks/<int:task_id> *)
Definition get_task (task_id : Z) (st : db) : response :=
  dispatch (task ← get_or_404 (tasks st) task_id;
            mret (TaskBody task, 200)).

(** *** POST /api/tasks *)

(** The body of the [try]: a result and the state it leaves, or an
    exception. *)
Definition create_task_try (now_c now_u : datetime) (req : request) (st : db)
    : py (db * response) :=
  data ← get_json req;
  invalid ← (if truthy data then v ← Py.get data "title"; mret (negb (truthy v))
             else mret true);
  if invalid : bool then mret (st, (Failure (Msg "Title is required"), 400))
  else
    v ← Py.get data "due_date";
    due ← (if truthy v then
             match parse_due_date data with
             | Return d => mret (inr (Some d))
             | Raise ValueError =>
                 mret (inl (Failure (Msg "Invalid date format"), 400))
             | Raise e => Raise e
             end
           else mret (inr None));
    match due with
    | inl resp => mret (st, resp)
    | inr due_date =>
        title ← getitem data "title";
        description ← get_d data "description" (JStr EmptyString);
        priority ← get_d data "priority" (JStr "medium");
        category ← get_d data "category" (JStr "general");
        task ← insert_task now_c now_u title description priority category
                 due_date (tasks st);
        mret (set_tasks (insert (Task.id task) task) st,
              (TaskMessage "Task created successfully" task, 201))
    end.

(** [except Exception as e]: roll back, answer 500 with [str(e)]. *)
Definition except_Exception (st : db) (r : py (db * response)) : db * response :=
  match r with
  | Return out => out
  | Raise e => (st, (Failure (Str e), 500))
  end.

Definition create_task (now_c now_u : datetime) (req : request) (st : db)
    : db * response :=
  except_Exception st (create_task_try now_c now_u req st).

(** *** PUT /api/tasks/<int:task_id> *)

(** [if k in data: task.<k> = data[k]] *)
Definition assign (k : string) (set : json → Task.obj → Task.obj)
    (data : json) (task : Task.obj) : py Task.obj :=
  present ← Py.contains k data;
  if present : bool then v ← getitem data k; mret (set v task)
  else mret task.

Definition assign_due_date (data : json) (task : Task.obj) : py Task.obj :=
  present ← Py.contains "due_date" data;
  if present : bool then
    v ← getitem data "due_date";
    if truthy v then d ← parse_due_date data; mret (Task.set_due_date (Some d) task)
    else mret (Task.set_due_date None task)
  else mret task.

Definition update_task_try (now : datetime) (task_id : Z) (req : request) (st : db)
    : py (db * response) :=
  t ← get_or_404 (tasks st) task_id;
  data ← get_json req;
  task ← assign "title" Task.set_title data (Task.load t);
  task ← assign "description" Task.set_description data task;
  task ← assign "completed" Task.set_completed data task;
  task ← assign "priority" Task.set_priority data task;
  task ← assign "category" Task.set_category data task;
  task ← assign_due_date data task;
  t' ← flush_task (Task.set_updated_at now task);
  mret (set_tasks (insert task_id t') st,
        (TaskMessage "Task updated successfully" t', 200)).

Definition update_task (now : datetime) (task_id : Z) (req : request) (st : db)
    : db * response :=
  except_Exception st (update_task_try now task_id req st).

(** *** DELETE /api/tasks/<int:task_id> *)
Definition delete_task_try (task_id : Z) (st : db) : py (db * response) :=
  task ← get_or_404 (tasks st) task_id;
  mret (set_tasks (delete task_id) st, (Message "Task deleted successfully", 200)).

Definition delete_task (task_id : Z) (st : db) : db * response :=
  except_Exception st (delete_task_try task_id st).

(** *** GET /api/categories *)
Definition get_categories (st : db) : response :=
  (CategoryList (rows (categories st)), 200).

(** *** POST /api/categories *)
Definition create_category_try (now : datetime) (req : request) (st : db)
    : py (db * response) :=
  data ← get_json req;
  invalid ← (if truthy data then v ← Py.get data "name"; mret (negb (truthy v))
             else mret true);
  if invalid : bool then mret (st, (Failure (Msg "Name is required"), 400))
  else
    name ← getitem data "name";
    color ← get_d data "color" (JStr "#3B82F6");
    category ← insert_category now name color (categories st);
    mret (set_categories (insert (Category.id category) category) st,
          (CategoryBody category, 201)).

Definition create_category (now : datetime) (req : request) (st : db)
    : db * response :=
  except_Exception st (create_category_try now req st).

End Handlers.

(** ** Startup *)

Definition default_categories : list (string * string) :=
  [("Work", "#3B82F6"); ("Personal", "#10B981"); ("Shopping", "#F59E0B");
   ("Health", "#EF4444"); ("General", "#6B7280")].

(** [db.session.add_all(default_categories); db.session.commit()]: the rows
    are inserted in order, [now] being read once for each. *)
Fixpoint add_all (now : nat → datetime) (n : nat) (l : list (string * string))
    (tbl : gmap Z Category.row) : gmap Z Category.row :=
  match l with
  | [] => tbl
  | (name, color) :: l =>
      add_all now (S n) l
        (<[next_id tbl := Category.Row (next_id tbl) name (Some color) (now n)]> tbl)
  end.

(** The module's start: the default categories are added to an empty
    [category] table only. *)
Definition startup (now : nat → datetime) (st : db) : db :=
  if Nat.eqb (size (categories st)) 0
  then set_categories (add_all now 0 default_categories) st
  else st.

(** ** Vocabulary of the properties *)

(** The row [create_task] inserts for a payload that holds a title only. *)
Definition fresh_task (now_c now_u : datetime) (title : string) (st : db) : Task.row :=
  Task.Row (next_id (tasks st)) title (Some EmptyString) (Some false)
           (Some "medium") (Some "general") None now_c now_u.

(** What the five plain assignments of [update_task] leave of a task
    instance when the payload is the dict [m]. *)
Definition assigned (m : gmap string json) (o : Task.obj) : Task.obj :=
  Task.Obj (Task.o_id o)
    (default (Task.o_title o) (m !! "title"))
    (default (Task.o_description o) (m !! "description"))
    (default (Task.o_completed o) (m !! "completed"))
    (default (Task.o_priority o) (m !! "priority"))
    (default (Task.o_category o) (m !! "category"))
    (Task.o_due_date o) (Task.o_created_at o) (Task.o_updated_at o).

Section Selection.
Context `{Backend}.

(** The tasks a request selects.  [category] and [priority] count when they
    are present and not empty, [completed] whenever it is present, [search]
    when it is present and not empty. *)
Definition selects (category priority completed search : option string)
    (t : Task.row) : Prop :=
  (given category = true → Task.category t = category)
  ∧ (given priority = true → Task.priority t = priority)
  ∧ from_option
      (λ v, Task.completed t = Some (String.eqb (lower v) "true")) True completed
  ∧ from_option
      (λ s, s ≠ EmptyString → search_matches s t = true) True search.

#[export] Instance from_option_dec {A} (P : A → Prop) `{!∀ v, Decision (P v)}
    (o : option A) : Decision (from_option P True o).
Proof. destruct o; apply _. Defined.

#[export] Instance selects_dec category priority completed search t :
  Decision (selects category priority completed search t).
Proof. unfold selects. apply _. Defined.


(** The tasks of a listing. *)
Definition listed (r : response) : list Task.row :=
  match r.1 with
  | TaskList _ l => l
  | _ => []
  end.

End Selection.

(** [Task.to_dict]: the JSON object a task is answered as.  [isoformat] is
    [datetime.isoformat]. *)
Definition Task_to_dict (isoformat : datetime → string) (t : Task.row)
    : gmap string json :=
  list_to_map
    [("id", JNum (Task.id t));
     ("title", JStr (Task.title t));
     ("description", Task.text (Task.description t));
     ("completed", Task.boolean (Task.completed t));
     ("priority", Task.text (Task.priority t));
     ("category", Task.text (Task.category t));
     ("due_date", from_option (λ d, JStr (isoformat d)) JNull (Task.due_date t));
     ("created_at", JStr (isoformat (Task.created_at t)));
     ("updated_at", JStr (isoformat (Task.updated_at t)))].

(** Every row is stored under its own [id]. *)
Definition well_keyed (st : db) : Prop :=
  map_Forall (λ k t, Task.id t = k) (tasks st)
  ∧ map_Forall (λ k c, Category.id c = k) (categories st).

(** No two categories have the same name. *)
Definition unique_names (st : db) : Prop :=
  NoDup (Category.name <$> rows (categories st)).

(** The [count] of a listing. *)
Definition count_of (r : response) : nat :=
  match r.1 with
  | TaskList n _ => n
  | _ => 0%nat
  end.



(** The completion rate as the interface words it: [completed / total * 100]
    as an exact quotient, rounded to the nearest hundredth (a tie to the even
    one, as [round] rounds), and 0 with no task. *)
Definition stated_completion_rate (completed total : Z) : number :=
  if 0 <? total
  then Float (float_of_Z (round_half_even (10000 * completed) total) / 100)%float
  else Int 0.

(** The hundredths of the rate [stats] answers for these counts, when the
    float product is zero or a positive float below 2^52. *)
Definition rate_hundredths (completed total : Z) : option Z :=
  match Prim2SF (float_of_Z completed / float_of_Z total * 100)%float with
  | S754_zero false => Some 0
  | S754_finite false m e => if e <? 0 then Some (hundredths m e) else None
  | _ => None
  end.

(** That number of hundredths is an integer nearest to the exact
    [10000 * completed / total]. *)
Definition rate_near (completed total : Z) : bool :=
  match rate_hundredths completed total with
  | Some h => 2 * Z.abs (h * total - 10000 * completed) <=? total
  | None => false
  end.

(** It is so for all the counts of at most [n] tasks. *)
Definition rate_near_upto (n : nat) : bool :=
  forallb (λ total,
             forallb (λ completed, rate_near (Z.of_nat completed) (Z.of_nat total))
                     (seq 0 (S total)))
          (seq 1 n).

(** ** A backend to run the handlers on *)

Module Sample.

Definition digit (c : Ascii.ascii) : option Z :=
  let n := Z.of_nat (Ascii.nat_of_ascii c) in
  if (48 <=? n) && (n <=? 57) then Some (n - 48) else None.

Fixpoint digits (acc : Z) (l : list Ascii.ascii) : option Z :=
  match l with
  | [] => Some acc
  | c :: l => d ← digit c; digits (10 * acc + d) l
  end.

Definition is_leap (y : Z) : bool :=
  (y mod 4 =? 0) && (negb (y mod 100 =? 0) || (y mod 400 =? 0)).

Definition days_in_month (y m : Z) : Z :=
  if m =? 2 then (if is_leap y then 29 else 28)
  else if (m =? 4) || (m =? 6) || (m =? 9) || (m =? 11) then 30 else 31.

(** Days from 1970-01-01 to the given date of the Gregorian calendar. *)
Definition days_from_civil (y m d : Z) : Z :=
  let y := if m <=? 2 then y - 1 else y in
  let era := y / 400 in
  let yoe := y - era * 400 in
  let doy := (153 * (if 2 <? m then m - 3 else m + 9) + 2) / 5 + d - 1 in
  let doe := yoe * 365 + yoe / 4 - yoe / 100 + doy in
  era * 146097 + doe - 719468.

(** The dates [YYYY-MM-DD] among the strings [datetime.fromisoformat]
    accepts, each read as midnight; every other string is refused. *)
Definition date_fromisoformat (s : string) : option datetime :=
  match list_ascii_of_string s with
  | [y1; y2; y3; y4; sep1; m1; m2; sep2; d1; d2] =>
      y ← digits 0 [y1; y2; y3; y4];
      m ← digits 0 [m1; m2];
      d ← digits 0 [d1; d2];
      if Ascii.eqb sep1 "-" && Ascii.eqb sep2 "-"
         && (1 <=? y) && (1 <=? m) && (m <=? 12)
         && (1 <=? d) && (d <=? days_in_month y m)
      then Some (days_from_civil y m d * 86400000000)
      else None
  | _ => None
  end.

(** A driver that stores strings, booleans and NULL and refuses the rest. *)
Definition strict_text (v : json) : option (option string) :=
  match v with
  | JStr s => Some (Some s)
  | JNull => Some None
  | _ => None
  end.

Definition strict_boolean (v : json) : option (option bool) :=
  match v with
  | JBool b => Some (Some b)
  | JNull => Some None
  | _ => None
  end.

#[export] Instance backend : Backend := {|
  fromisoformat := date_fromisoformat;
  bind_text := strict_text;
  bind_boolean := strict_boolean;
  bind_text_str := λ s, eq_refl;
  bind_text_null := eq_refl;
  bind_boolean_bool := λ b, eq_refl;
  bind_boolean_null := eq_refl;
|}.

(** The database after a first start at time 0. *)
Definition seeded : db := startup (λ _, 0) (Db ∅ ∅).

(** Three tasks, the second completed. *)
Definition task1 : Task.row :=
  Task.Row 1 "Write report" (Some "quarterly") (Some false) (Some "high")
           (Some "Work") None 100 100.
Definition task2 : Task.row :=
  Task.Row 2 "Buy milk" (Some EmptyString) (Some true) (Some "medium")
           (Some "general") None 200 250.
Definition task3 : Task.row :=
  Task.Row 3 "Call home" None (Some false) (Some "high")
           (Some "Personal") (Some 5000) 300 300.

(** A task due on 2024-02-29. *)
Definition task4 : Task.row :=
  Task.Row 4 "File taxes" (Some "forms") (Some false) None
           (Some "Work") (Some 1709164800000000) 400 400.

Definition three_tasks : db :=
  Db (<[3 := task3]> (<[2 := task2]> (<[1 := task1]> ∅))) (categories seeded).

(** [n] tasks, numbered from 1, of which the first [k] are completed. *)
Definition numbered (k i : nat) : Task.row :=
  Task.Row (Z.of_nat i) "task" None (Some (Nat.leb i k)) (Some "medium")
           (Some "general") None (Z.of_nat i) (Z.of_nat i).

Definition counted (n k : nat) : db :=
  Db (list_to_map ((λ i, (Z.of_nat i, numbered k i)) <$> seq 1 n)) ∅.

(** The date of a day counted from 1970-01-01. *)
Definition civil_from_days (z : Z) : Z * Z * Z :=
  let z := z + 719468 in
  let era := z / 146097 in
  let doe := z - era * 146097 in
  let yoe := (doe - doe / 1460 + doe / 36524 - doe / 146096) / 365 in
  let doy := doe - (365 * yoe + yoe / 4 - yoe / 100) in
  let mp := (5 * doy + 2) / 153 in
  let d := doy - (153 * mp + 2) / 5 + 1 in
  let m := if mp <? 10 then mp + 3 else mp - 9 in
  (if m <=? 2 then yoe + era * 400 + 1 else yoe + era * 400, m, d).

Definition digit_char (n : Z) : Ascii.ascii :=
  Ascii.ascii_of_nat (Z.to_nat (48 + n mod 10)).

Definition two_digits (n : Z) (rest : string) : string :=
  String (digit_char (n / 10)) (String (digit_char n) rest).

(** The date [YYYY-MM-DD] of a time: what [date_fromisoformat] reads back
    when the time is a midnight. *)
Definition date_isoformat (d : datetime) : string :=
  let '(y, m, day) := civil_from_days (d / 86400000000) in
  two_digits (y / 100)
    (two_digits y (String "-" (two_digits m (String "-" (two_digits day EmptyString))))).

End Sample.

(** ** Properties *)

(** *** Python operations on a dict *)

Lemma truthy_JStr s : truthy (JStr s) = true ↔ s ≠ EmptyString.
Proof.
  simpl. destruct (String.eqb_spec s EmptyString); simpl; split; congruence.
Qed.

Lemma truthy_JObj_singleton k v : truthy (JObj {[ k := v ]}) = true.
Proof. simpl. by rewrite map_size_singleton. Qed.

Lemma contains_JObj k (m : gmap string json) :
  Py.contains k (JObj m) = Return (bool_decide (is_Some (m !! k))).
Proof. done. Qed.

Lemma bind_Return {A B} (f : A → py B) (a : A) : (Return a ≫= f) = f a.
Proof. done. Qed.

(** *** Keys *)

Lemma foldr_max_ge (l : list Z) k : k ∈ l → k ≤ foldr Z.max 0 l.
Proof.
  induction l as [|x l IH]; simpl.
  - by intros ?%elem_of_nil.
  - intros [->|Hk]%elem_of_cons; [lia|]. specialize (IH Hk). lia.
Qed.

(** The key an INSERT assigns is not in the table. *)
Lemma next_id_fresh {A} (tbl : gmap Z A) : tbl !! next_id tbl = None.
Proof.
  destruct (tbl !! next_id tbl) as [r|] eqn:E; [|done].
  assert (next_id tbl ∈ (map_to_list tbl).*1) as Hin.
  { apply list_elem_of_fmap. exists (next_id tbl, r). split; [done|].
    by apply elem_of_map_to_list. }
  apply foldr_max_ge in Hin. unfold next_id in Hin at 1. lia.
Qed.

Lemma next_id_positive {A} (tbl : gmap Z A) : 0 < next_id tbl.
Proof.
  unfold next_id. induction ((map_to_list tbl).*1) as [|x l IH]; simpl; lia.
Qed.

(** *** Tasks by id *)

Lemma get_task_present task_id st t :
  tasks st !! task_id = Some t → get_task task_id st = (TaskBody t, 200).
Proof. intros Ht. unfold get_task, get_or_404. by rewrite Ht. Qed.

Section Properties.
Context `{Backend}.

(** *** The validation of [create_task] *)

Lemma create_task_null_body now_c now_u st :
  create_task now_c now_u (Json JNull) st = (st, (Failure (Msg "Title is required"), 400)).
Proof. done. Qed.

Lemma create_task_falsy_title now_c now_u st (m : gmap string json) :
  truthy (default JNull (m !! "title")) = false →
  create_task now_c now_u (Json (JObj m)) st = (st, (Failure (Msg "Title is required"), 400)).
Proof.
  intros Hfalsy. unfold create_task, create_task_try, get_json. rewrite bind_Return.
  destruct (truthy (JObj m)); simpl; [|done].
  by rewrite Hfalsy.
Qed.

(** C8, as the code has it.  A JSON body that is [null], or a dict whose
    [title] is absent or falsy — the empty string, [null] — makes
    [create_task] answer 400 [Title is required] and leave the database as
    it was: no task is created.  A request with no JSON document to read does
    not get that far: [request.get_json()] raises inside the [try], and
    [except Exception] answers 500 with the exception's text, not 400; the
    database is as it was there too. *)
Theorem create_task_title_required now_c now_u st :
  (∀ data,
     data = JNull ∨
     (∃ m : gmap string json,
        data = JObj m ∧
        (m !! "title" = None ∨ m !! "title" = Some (JStr EmptyString)
         ∨ m !! "title" = Some JNull)) →
     create_task now_c now_u (Json data) st
     = (st, (Failure (Msg "Title is required"), 400))
     ∧ size (tasks (create_task now_c now_u (Json data) st).1) = size (tasks st))
  ∧ create_task now_c now_u BadJson st = (st, (Failure (Str BadRequest), 500))
  ∧ create_task now_c now_u NoJson st
    = (st, (Failure (Str UnsupportedMediaType), 500)).
Proof.
  split; [|done].
  intros data Hdata.
  assert (create_task now_c now_u (Json data) st
          = (st, (Failure (Msg "Title is required"), 400))) as ->.
  { destruct Hdata as [->|(m & -> & Htitle)].
    - apply create_task_null_body.
    - apply create_task_falsy_title.
      by destruct Htitle as [->|[->| ->]]. }
  done.
Qed.

(** *** [create_task] with nothing but a title *)

Lemma create_task_title_only now_c now_u st title :
  title ≠ EmptyString →
  create_task now_c now_u (Json (JObj {[ "title" := JStr title ]})) st
  = (set_tasks (insert (next_id (tasks st)) (fresh_task now_c now_u title st)) st,
     (TaskMessage "Task created successfully" (fresh_task now_c now_u title st), 201)).
Proof.
  intros Htitle%truthy_JStr.
  unfold create_task, create_task_try, get_json. rewrite bind_Return.
  rewrite truthy_JObj_singleton. cbn [Py.get get_d getitem mbind py_bind mret py_ret].
  rewrite lookup_singleton_eq, !lookup_singleton_ne by done.
  cbn [default from_option id]. rewrite Htitle. cbn [negb truthy mbind py_bind mret py_ret].
  unfold insert_task. cbn [or_default].
  rewrite !bind_text_str. done.
Qed.

(** C4, as the code has it.  A payload that holds a non-empty [title] and
    nothing else makes [create_task] answer 201 with a task whose priority is
    [medium], category [general], completed false, description empty and
    due date absent; the task is stored under a key the table did not hold.
    [created_at] and [updated_at] are two readings of the clock, one by each
    column's own [default=datetime.utcnow]: they are equal when the two
    readings are. *)
Theorem create_task_defaults now_c now_u st title :
  title ≠ EmptyString →
  ∃ t,
    create_task now_c now_u (Json (JObj {[ "title" := JStr title ]})) st
    = (set_tasks (insert (Task.id t) t) st,
       (TaskMessage "Task created successfully" t, 201))
    ∧ tasks st !! Task.id t = None
    ∧ Task.title t = title
    ∧ Task.priority t = Some "medium"
    ∧ Task.category t = Some "general"
    ∧ Task.completed t = Some false
    ∧ Task.description t = Some EmptyString
    ∧ Task.due_date t = None
    ∧ Task.created_at t = now_c
    ∧ Task.updated_at t = now_u
    ∧ (now_c = now_u → Task.created_at t = Task.updated_at t).
Proof.
  intros Htitle. exists (fresh_task now_c now_u title st).
  split; [by apply create_task_title_only|].
  split; [apply next_id_fresh|]. by repeat split.
Qed.

(** *** [update_task] on a dict *)

Lemma assign_JObj k set (m : gmap string json) o :
  assign k set (JObj m) o = Return (from_option (λ v, set v o) o (m !! k)).
Proof.
  unfold assign. rewrite contains_JObj. cbn [mbind py_bind getitem].
  destruct (m !! k) as [v|]; [|done].
  by rewrite bool_decide_eq_true_2.
Qed.

(** The attribute values of a loaded task go back into the columns they
    came from. *)
Lemma flush_load t : flush_task (Task.load t) = Return t.
Proof.
  destruct t as [i ti d c p ca du cr up]. unfold flush_task. simpl.
  rewrite bind_text_str. simpl.
  destruct d, c, p, ca; simpl;
    rewrite ?bind_text_str, ?bind_text_null, ?bind_boolean_bool, ?bind_boolean_null;
    simpl; rewrite ?bind_text_str, ?bind_text_null, ?bind_boolean_bool, ?bind_boolean_null;
    done.
Qed.

Lemma flush_task_typed i ti d c p ca du cr up :
  flush_task (Task.Obj i (JStr ti) (Task.text d) (Task.boolean c) (Task.text p)
                       (Task.text ca) du cr up)
  = Return (Task.Row i ti d c p ca du cr up).
Proof. apply (flush_load (Task.Row i ti d c p ca du cr up)). Qed.

Lemma update_task_JObj now task_id (m : gmap string json) st t :
  tasks st !! task_id = Some t →
  update_task now task_id (Json (JObj m)) st
  = except_Exception st
      (task ← assign_due_date (JObj m) (assigned m (Task.load t));
       t' ← flush_task (Task.set_updated_at now task);
       mret (set_tasks (insert task_id t') st,
             (TaskMessage "Task updated successfully" t', 200))).
Proof.
  intros Ht. unfold update_task, update_task_try, get_or_404. rewrite Ht.
  cbn [get_json mbind py_bind]. repeat (rewrite assign_JObj; cbn [mbind py_bind]).
  unfold assigned. destruct t.
  by destruct (m !! "title"), (m !! "description"), (m !! "completed"),
       (m !! "priority"), (m !! "category").
Qed.

Lemma assign_due_date_absent (m : gmap string json) o :
  m !! "due_date" = None → assign_due_date (JObj m) o = Return o.
Proof. intros Hm. unfold assign_due_date. rewrite contains_JObj, Hm. done. Qed.

(** The result of an update whose payload has no [due_date] and whose
    values the driver stores as they are. *)
Lemma update_task_typed now task_id (m : gmap string json) st t ti d c p ca :
  tasks st !! task_id = Some t →
  m !! "due_date" = None →
  default (JStr (Task.title t)) (m !! "title") = JStr ti →
  default (Task.text (Task.description t)) (m !! "description") = Task.text d →
  default (Task.boolean (Task.completed t)) (m !! "completed") = Task.boolean c →
  default (Task.text (Task.priority t)) (m !! "priority") = Task.text p →
  default (Task.text (Task.category t)) (m !! "category") = Task.text ca →
  let t' := Task.Row (Task.id t) ti d c p ca (Task.due_date t) (Task.created_at t) now in
  update_task now task_id (Json (JObj m)) st
  = (set_tasks (insert task_id t') st,
     (TaskMessage "Task updated successfully" t', 200)).
Proof.
  intros Ht Hdue Hti Hd Hc Hp Hca t'.
  rewrite (update_task_JObj _ _ _ _ _ Ht), assign_due_date_absent by done.
  cbn [mbind py_bind]. unfold assigned, Task.set_updated_at, Task.load.
  cbn [Task.o_id Task.o_title Task.o_description Task.o_completed Task.o_priority
       Task.o_category Task.o_due_date Task.o_created_at Task.o_updated_at].
  rewrite Hti, Hd, Hc, Hp, Hca, flush_task_typed. done.
Qed.

(** C10.  On a stored task, [update_task] with the payload [{"title": s}]
    answers 200 and stores the title [s], whatever the string — the empty one
    included: only [create_task] looks at whether a title is empty.  The
    other columns stay, [updated_at] is set to the time of the update. *)
Theorem update_task_title_any_string now task_id st t s :
  tasks st !! task_id = Some t →
  let t' := Task.Row (Task.id t) s (Task.description t) (Task.completed t)
              (Task.priority t) (Task.category t) (Task.due_date t)
              (Task.created_at t) now in
  update_task now task_id (Json (JObj {[ "title" := JStr s ]})) st
  = (set_tasks (insert task_id t') st,
     (TaskMessage "Task updated successfully" t', 200))
  ∧ tasks (update_task now task_id (Json (JObj {[ "title" := JStr s ]})) st).1 !! task_id
    = Some t'
  ∧ Task.title t' = s.
Proof.
  intros Ht t'.
  assert (update_task now task_id (Json (JObj {[ "title" := JStr s ]})) st
          = (set_tasks (insert task_id t') st,
             (TaskMessage "Task updated successfully" t', 200))) as ->.
  { apply update_task_typed; try done;
      by rewrite ?lookup_singleton_eq, ?lookup_singleton_ne by done. }
  split; [done|]. split; [|done]. simpl. apply lookup_insert_eq.
Qed.

(** *** What an update leaves alone *)

Lemma flush_task_Return o t' :
  flush_task o = Return t' →
  bind_text (Task.o_title o) = Some (Some (Task.title t'))
  ∧ bind_text (Task.o_description o) = Some (Task.description t')
  ∧ bind_boolean (Task.o_completed o) = Some (Task.completed t')
  ∧ bind_text (Task.o_priority o) = Some (Task.priority t')
  ∧ bind_text (Task.o_category o) = Some (Task.category t')
  ∧ Task.id t' = Task.o_id o
  ∧ Task.due_date t' = Task.o_due_date o
  ∧ Task.created_at t' = Task.o_created_at o
  ∧ Task.updated_at t' = Task.o_updated_at o.
Proof.
  unfold flush_task.
  destruct (bind_text (Task.o_title o)) as [[ti|]|]; try done.
  destruct (bind_text (Task.o_description o)) as [d|]; try done.
  destruct (bind_boolean (Task.o_completed o)) as [c|]; try done.
  destruct (bind_text (Task.o_priority o)) as [p|]; try done.
  destruct (bind_text (Task.o_category o)) as [ca|]; try done.
  simpl. intros [= <-]. done.
Qed.

Lemma assign_due_date_cases (m : gmap string json) o :
  (∃ e, assign_due_date (JObj m) o = Raise e)
  ∨ (∃ du, assign_due_date (JObj m) o = Return (Task.set_due_date du o)
           ∧ is_Some (m !! "due_date"))
  ∨ (assign_due_date (JObj m) o = Return o ∧ m !! "due_date" = None).
Proof.
  unfold assign_due_date. rewrite contains_JObj.
  destruct (m !! "due_date") as [v|] eqn:Hv.
  - rewrite bool_decide_eq_true_2 by done. cbn [mbind py_bind getitem].
    rewrite Hv. cbn [mbind py_bind].
    destruct (truthy v); [|by right; left; eexists].
    destruct (parse_due_date (JObj m)) as [d|e];
      [by right; left; eexists|by left; eexists].
  - by right; right.
Qed.

Lemma update_task_frame now task_id (m : gmap string json) st t :
  tasks st !! task_id = Some t →
  ∃ t',
    tasks (update_task now task_id (Json (JObj m)) st).1 !! task_id = Some t'
    ∧ Task.id t' = Task.id t
    ∧ Task.created_at t' = Task.created_at t
    ∧ (m !! "title" = None → Task.title t' = Task.title t)
    ∧ (m !! "description" = None → Task.description t' = Task.description t)
    ∧ (m !! "completed" = None → Task.completed t' = Task.completed t)
    ∧ (m !! "priority" = None → Task.priority t' = Task.priority t)
    ∧ (m !! "category" = None → Task.category t' = Task.category t)
    ∧ (m !! "due_date" = None → Task.due_date t' = Task.due_date t).
Proof.
  intros Ht. rewrite (update_task_JObj _ _ _ _ _ Ht).
  assert ((∃ o, assign_due_date (JObj m) (assigned m (Task.load t)) = Return o
                ∧ Task.o_id o = Task.id t
                ∧ Task.o_created_at o = Task.created_at t
                ∧ Task.o_title o = default (JStr (Task.title t)) (m !! "title")
                ∧ Task.o_description o
                  = default (Task.text (Task.description t)) (m !! "description")
                ∧ Task.o_completed o
                  = default (Task.boolean (Task.completed t)) (m !! "completed")
                ∧ Task.o_priority o
                  = default (Task.text (Task.priority t)) (m !! "priority")
                ∧ Task.o_category o
                  = default (Task.text (Task.category t)) (m !! "category")
                ∧ (m !! "due_date" = None → Task.o_due_date o = Task.due_date t))
          ∨ (∃ e, assign_due_date (JObj m) (assigned m (Task.load t)) = Raise e))
    as [(o & -> & Hid & Hcr & Hti & Hd & Hc & Hp & Hca & Hdu)|[e ->]].
  { destruct (assign_due_date_cases m (assigned m (Task.load t)))
      as [?|[(du & -> & [v Hv])|[-> Hv]]]; [by right|left..].
    - eexists; split; [done|]. repeat split. by rewrite Hv.
    - eexists; split; [done|]. by repeat split. }
  2: { exists t. simpl. by repeat split. }
  cbn [mbind py_bind].
  destruct (flush_task (Task.set_updated_at now o)) as [t'|e] eqn:Hflush.
  2: { exists t. simpl. by repeat split. }
  apply flush_task_Return in Hflush
    as (Hti' & Hd' & Hc' & Hp' & Hca' & Hid' & Hdu' & Hcr' & _).
  destruct o as [oi oti od oc op oca odu ocr oup]. simpl in *. subst.
  exists t'. split; [apply lookup_insert_eq|].
  split; [done|]. split; [done|].
  repeat split; intros Hm; rewrite Hm in *; simpl in *.
  - rewrite bind_text_str in Hti'. congruence.
  - destruct (Task.description t); simpl in Hd';
      rewrite ?bind_text_str, ?bind_text_null in Hd'; congruence.
  - destruct (Task.completed t); simpl in Hc';
      rewrite ?bind_boolean_bool, ?bind_boolean_null in Hc'; congruence.
  - destruct (Task.priority t); simpl in Hp';
      rewrite ?bind_text_str, ?bind_text_null in Hp'; congruence.
  - destruct (Task.category t); simpl in Hca';
      rewrite ?bind_text_str, ?bind_text_null in Hca'; congruence.
  - auto.
Qed.

(** The other tasks and the categories are out of an update's reach. *)
Lemma update_task_others now task_id req st :
  categories (update_task now task_id req st).1 = categories st
  ∧ ∀ k, k ≠ task_id → tasks (update_task now task_id req st).1 !! k = tasks st !! k.
Proof.
  unfold update_task.
  destruct (update_task_try now task_id req st) as [[st' r]|e] eqn:Htry; [|done].
  unfold update_task_try in Htry.
  repeat match type of Htry with
         | mbind _ ?c = Return _ => destruct c; [cbn [mbind py_bind] in Htry|done]
         end.
  injection Htry as <- <-. simpl. split; [done|]. intros k Hk.
  by apply lookup_insert_ne.
Qed.

(** C5.  On a stored task, [update_task] with the payload
    [{"completed": true}] answers 200, sets [completed] to true and
    [updated_at] to the time of the update, and leaves [id], [title],
    [description], [priority], [category], [due_date] and [created_at] as
    they were: that is the row answered, and the row the table holds under
    the id afterwards.  In general, for every dict payload and whatever the
    outcome, the column of a key the payload does not hold is left as it was,
    as are [id], [created_at], the other tasks and the categories. *)
Theorem update_task_partial now task_id st t :
  tasks st !! task_id = Some t →
  (let t' := Task.Row (Task.id t) (Task.title t) (Task.description t) (Some true)
               (Task.priority t) (Task.category t) (Task.due_date t)
               (Task.created_at t) now in
   update_task now task_id (Json (JObj {[ "completed" := JBool true ]})) st
   = (set_tasks (insert task_id t') st,
      (TaskMessage "Task updated successfully" t', 200))
   ∧ tasks (update_task now task_id
              (Json (JObj {[ "completed" := JBool true ]})) st).1 !! task_id
     = Some t'
   ∧ Task.completed t' = Some true
   ∧ Task.updated_at t' = now)
  ∧ ∀ m : gmap string json,
      (∃ t',
         tasks (update_task now task_id (Json (JObj m)) st).1 !! task_id = Some t'
         ∧ Task.id t' = Task.id t
         ∧ Task.created_at t' = Task.created_at t
         ∧ (m !! "title" = None → Task.title t' = Task.title t)
         ∧ (m !! "description" = None → Task.description t' = Task.description t)
         ∧ (m !! "completed" = None → Task.completed t' = Task.completed t)
         ∧ (m !! "priority" = None → Task.priority t' = Task.priority t)
         ∧ (m !! "category" = None → Task.category t' = Task.category t)
         ∧ (m !! "due_date" = None → Task.due_date t' = Task.due_date t))
      ∧ categories (update_task now task_id (Json (JObj m)) st).1 = categories st
      ∧ ∀ k, k ≠ task_id →
          tasks (update_task now task_id (Json (JObj m)) st).1 !! k = tasks st !! k.
Proof.
  intros Ht. split.
  - cbv zeta.
    rewrite (update_task_typed now task_id {[ "completed" := JBool true ]} st t
               (Task.title t) (Task.description t) (Some true)
               (Task.priority t) (Task.category t) Ht)
      by (by rewrite ?lookup_singleton_eq, ?lookup_singleton_ne by done).
    split; [done|]. split; [|done]. simpl. apply lookup_insert_eq.
  - intros m. split; [by apply update_task_frame|apply update_task_others].
Qed.

(** A task created from a title alone is the one [get_task] then returns. *)
Lemma create_then_get now_c now_u st title :
  title ≠ EmptyString →
  get_task (next_id (tasks st))
    (create_task now_c now_u (Json (JObj {[ "title" := JStr title ]})) st).1
  = (TaskBody (fresh_task now_c now_u title st), 200).
Proof.
  intros Htitle. rewrite (create_task_title_only _ _ _ _ Htitle).
  apply get_task_present. simpl. apply lookup_insert_eq.
Qed.

(** X9.  [update_task] has the same [try] around [get_or_404] as
    [delete_task]: on an id that is not stored, and whatever the body, it
    answers 500 with the text of the [NotFound], not 404, and the database is
    as it was. *)
Lemma update_task_absent now task_id req st :
  tasks st !! task_id = None →
  update_task now task_id req st = (st, (Failure (Str NotFound), 500)).
Proof.
  intros Ht. unfold update_task, update_task_try, get_or_404. by rewrite Ht.
Qed.

(** *** A [due_date] that does not parse *)

Lemma parse_due_date_invalid (m : gmap string json) s :
  m !! "due_date" = Some (JStr s) →
  fromisoformat (replace_Z s) = None →
  parse_due_date (JObj m) = Raise ValueError.
Proof.
  intros Hm Hs. unfold parse_due_date, py_fromisoformat. simpl.
  rewrite Hm. simpl. by rewrite Hs.
Qed.

(** X1.  [create_task] catches the [ValueError] of the parse: a payload with
    a truthy [title] and a [due_date] that is a non-empty string
    [fromisoformat] refuses is answered 400 [Invalid date format], and no
    task is created. *)
Lemma create_task_invalid_date now_c now_u st (m : gmap string json) s :
  truthy (default JNull (m !! "title")) = true →
  m !! "due_date" = Some (JStr s) →
  s ≠ EmptyString →
  fromisoformat (replace_Z s) = None →
  create_task now_c now_u (Json (JObj m)) st
  = (st, (Failure (Msg "Invalid date format"), 400)).
Proof.
  intros Htitle Hm Hs%truthy_JStr Hparse. unfold create_task, create_task_try, get_json. rewrite bind_Return.
  assert (truthy (JObj m) = true) as ->.
  { simpl. destruct (size m) eqn:Hsize; [|done].
    apply map_size_empty_iff in Hsize. by rewrite Hsize, lookup_empty in Hm. }
  cbn [Py.get get_d mbind py_bind mret py_ret]. rewrite Htitle, Hm.
  cbn [negb default from_option id]. rewrite Hs.
  by rewrite (parse_due_date_invalid _ _ Hm Hparse).
Qed.

(** C2, as the code has it.  On a stored task, [update_task] with a
    [due_date] that is a non-empty string [fromisoformat] refuses does not
    answer 400: the [ValueError] reaches [except Exception], and the answer is
    500 with the exception's text.  The database is rolled back to what it
    was. *)
Theorem update_task_invalid_date now task_id st t (m : gmap string json) s :
  tasks st !! task_id = Some t →
  m !! "due_date" = Some (JStr s) →
  s ≠ EmptyString →
  fromisoformat (replace_Z s) = None →
  update_task now task_id (Json (JObj m)) st = (st, (Failure (Str ValueError), 500)).
Proof.
  intros Ht Hm Hs%truthy_JStr Hparse.
  rewrite (update_task_JObj _ _ _ _ _ Ht).
  unfold assign_due_date. rewrite contains_JObj, Hm, bool_decide_eq_true_2 by done.
  cbn [mbind py_bind getitem]. rewrite Hm. cbn [mbind py_bind]. rewrite Hs.
  by rewrite (parse_due_date_invalid _ _ Hm Hparse).
Qed.

(** *** A task that is not there *)

(** [get_task] has no [try]: the [NotFound] of [get_or_404] reaches the 404
    handler. *)
Lemma get_task_absent task_id st :
  tasks st !! task_id = None → get_task task_id st = not_found.
Proof. intros Ht. unfold get_task, get_or_404. by rewrite Ht. Qed.

(** C1, as the code has it.  [delete_task] on an id the table does not hold
    leaves the database as it was, and so the number of tasks; but it does
    not answer 404: the [NotFound] that [get_or_404] raises inside the [try]
    is caught by [except Exception], and the answer is 500 with the
    exception's text. *)
Theorem delete_task_absent task_id st :
  tasks st !! task_id = None →
  delete_task task_id st = (st, (Failure (Str NotFound), 500))
  ∧ size (tasks (delete_task task_id st).1) = size (tasks st).
Proof.
  intros Ht. unfold delete_task, delete_task_try, get_or_404. by rewrite Ht.
Qed.

(** *** A category name that is taken *)

(** C3.  When the payload's [name] is the name of a stored category,
    [create_category] answers with a failure envelope and leaves the
    database as it was: no row is added, none is changed.  For a non-empty
    name, with a [color] that is absent, [null] or a string, the failure is
    the INSERT's [IntegrityError] on the unique [name], which the handler
    answers with status 500 and the exception's text. *)
Theorem create_category_duplicate now st (m : gmap string json) name :
  m !! "name" = Some (JStr name) →
  name ∈ Category.name <$> rows (categories st) →
  (create_category now (Json (JObj m)) st).1 = st
  ∧ success (create_category now (Json (JObj m)) st).2 = false
  ∧ (name ≠ EmptyString →
     m !! "color" = None ∨ m !! "color" = Some JNull
     ∨ (∃ c, m !! "color" = Some (JStr c)) →
     create_category now (Json (JObj m)) st = (st, (Failure (Str IntegrityError), 500))).
Proof.
  intros Hm Hdup. unfold create_category, create_category_try, get_json. rewrite bind_Return.
  assert (truthy (JObj m) = true) as ->.
  { simpl. destruct (size m) eqn:Hsize; [|done].
    apply map_size_empty_iff in Hsize. by rewrite Hsize, lookup_empty in Hm. }
  cbn [Py.get get_d getitem mbind py_bind mret py_ret]. rewrite Hm.
  cbn [default from_option id].
  destruct (truthy (JStr name)) eqn:Hname; cbn [negb mbind py_bind].
  2: { split; [done|]. split; [done|]. intros Hne. apply truthy_JStr in Hne.
       congruence. }
  unfold insert_category. rewrite bind_text_str. cbn [bind_param not_null mbind py_bind].
  rewrite (bool_decide_eq_true_2 _ Hdup).
  destruct (bind_text _) as [c|] eqn:Hcolor; cbn [bind_param mbind py_bind except_Exception].
  - done.
  - split; [done|]. split; [done|]. intros _ Hc. exfalso.
    destruct Hc as [Hc|[Hc|[c Hc]]]; rewrite Hc in Hcolor; simpl in Hcolor;
      by rewrite bind_text_str in Hcolor.
Qed.

End Properties.

(** *** A task that is there *)

(** X20.  [delete_task] on a stored id answers 200 and removes that row:
    the id is no longer stored, there is one task less, and the categories
    are as they were. *)
Lemma delete_task_present task_id st t :
  tasks st !! task_id = Some t →
  delete_task task_id st
  = (set_tasks (delete task_id) st, (Message "Task deleted successfully", 200))
  ∧ tasks (delete_task task_id st).1 !! task_id = None
  ∧ S (size (tasks (delete_task task_id st).1)) = size (tasks st)
  ∧ categories (delete_task task_id st).1 = categories st.
Proof.
  intros Ht. unfold delete_task, delete_task_try, get_or_404. rewrite Ht. simpl.
  split; [done|]. split; [apply lookup_delete_eq|]. split; [|done].
  rewrite map_size_delete, Ht.
  assert (size (tasks st) ≠ 0%nat) as Hsize.
  { intros Hsize%map_size_empty_iff. by rewrite Hsize, lookup_empty in Ht. }
  simpl. lia.
Qed.

(** *** Startup *)

(** X21.  A start on an empty [category] table, whatever the tasks, stores
    the five default categories under the ids 1 to 5, in the order of the
    list, each with its color and its own reading of the clock, and leaves
    the tasks alone. *)
Lemma startup_seeds now tbl :
  let st := startup now (Db tbl ∅) in
  tasks st = tbl
  ∧ size (categories st) = 5%nat
  ∧ categories st !! 1 = Some (Category.Row 1 "Work" (Some "#3B82F6") (now 0%nat))
  ∧ categories st !! 2 = Some (Category.Row 2 "Personal" (Some "#10B981") (now 1%nat))
  ∧ categories st !! 3 = Some (Category.Row 3 "Shopping" (Some "#F59E0B") (now 2%nat))
  ∧ categories st !! 4 = Some (Category.Row 4 "Health" (Some "#EF4444") (now 3%nat))
  ∧ categories st !! 5 = Some (Category.Row 5 "General" (Some "#6B7280") (now 4%nat)).
Proof. repeat split; vm_compute; reflexivity. Qed.

(** X22.  A start after a start changes nothing: the defaults are added to
    an empty [category] table only, and a start does not leave it empty. *)
Lemma startup_again now now' st :
  startup now' (startup now st) = startup now st.
Proof.
  unfold startup at 2. destruct (Nat.eqb_spec (size (categories st)) 0) as [Hsize|Hsize].
  - apply map_size_empty_iff in Hsize. destruct st as [tbl cats]. simpl in *. subst.
    unfold startup. by vm_compute (size _).
  - unfold startup. by rewrite (proj2 (Nat.eqb_neq _ _) Hsize).
Qed.

(** *** Statistics *)

Lemma round_half_even_nearest n d :
  0 < d → 2 * Z.abs (round_half_even n d * d - n) ≤ d.
Proof.
  intros Hd. unfold round_half_even.
  pose proof (Z.div_mod n d ltac:(lia)) as Hn.
  pose proof (Z.mod_pos_bound n d Hd) as Hr.
  destruct (Z.ltb_spec (2 * (n mod d)) d); [nia|].
  destruct (Z.ltb_spec d (2 * (n mod d))); [nia|].
  destruct (Z.even (n / d)); nia.
Qed.

(** The hundredths kept of [m * 2^e], [e < 0], are an integer nearest to
    [100 * m * 2^e]. *)
Lemma hundredths_nearest m e :
  e < 0 →
  2 * Z.abs (hundredths m e * 2 ^ (- e) - 100 * Z.pos m) ≤ 2 ^ (- e).
Proof.
  intros He. unfold hundredths.
  destruct (Z.leb_spec 0 e); [lia|].
  apply round_half_even_nearest. apply Z.pow_pos_nonneg; lia.
Qed.

Lemma rows_length {A} (tbl : gmap Z A) : length (rows tbl) = size tbl.
Proof. unfold rows. by rewrite length_fmap, length_map_to_list. Qed.

Lemma rate_near_sound completed total :
  rate_near completed total = true →
  ∃ h, round2 (float_of_Z completed / float_of_Z total * 100)%float
       = (float_of_Z h / 100)%float
       ∧ 2 * Z.abs (h * total - 10000 * completed) ≤ total.
Proof.
  unfold rate_near, rate_hundredths, round2.
  set (x := (float_of_Z completed / float_of_Z total * 100)%float).
  destruct (Prim2SF x) as [[|]| | |[|] m e] eqn:Hx; try done.
  - intros Hnear%Z.leb_le. exists 0. split; [|done].
    rewrite <-(SF2Prim_Prim2SF x), Hx. by vm_compute.
  - destruct (Z.ltb_spec e 0) as [He|He]; [|done].
    intros Hnear%Z.leb_le. exists (hundredths m e). split; [|done].
    by destruct (Z.leb_spec 0 e); [lia|].
Qed.

Lemma rate_near_upto_spec n completed total :
  rate_near_upto n = true →
  0 ≤ completed ≤ total → 0 < total ≤ Z.of_nat n →
  rate_near completed total = true.
Proof.
  unfold rate_near_upto. intros Hall Hc Ht.
  rewrite List.forallb_forall in Hall.
  specialize (Hall (Z.to_nat total)). rewrite List.forallb_forall in Hall.
  specialize (Hall ltac:(apply List.in_seq; lia) (Z.to_nat completed)
                ltac:(apply List.in_seq; lia)).
  by rewrite !Z2Nat.id in Hall by lia.
Qed.

Lemma rate_near_upto_200 : rate_near_upto 200 = true.
Proof. by vm_compute. Qed.

(** C6, as the code has it.  [stats] answers 200 with: the number of tasks;
    the number of them whose [completed] is true; their difference as the
    pending ones, which are the tasks whose [completed] is not true; and the
    completion rate.  With no task the rate is the integer 0 and nothing is
    divided.  Otherwise it is [round(completed / total * 100, 2)] in binary64
    arithmetic, quotient and product each rounded to a float: when the
    product is the float [m * 2^e], [e < 0], the rate is the double for [h]
    hundredths, [h] the integer nearest to [100 * m * 2^e] (a tie goes to
    the even one).  Up to 200 tasks that [h] is an integer nearest to the
    exact [10000 * completed / total]; where the exact value is a tie, it
    may be the lower one.  Three tasks of which one is completed give 3, 1,
    2 and 33.33, the double nearest to 3333/100; 160 tasks of which 23 are
    completed give 14.37, the exact rate being 14.375. *)
Theorem stats_counts st :
  let total := Z.of_nat (size (tasks st)) in
  let completed :=
    Z.of_nat (length (filter (λ t, Task.completed t = Some true) (rows (tasks st)))) in
  ∃ rate,
    stats st = (Stats total completed (total - completed) rate, 200)
    ∧ 0 ≤ completed ≤ total
    ∧ total - completed
      = Z.of_nat (length (filter (λ t, Task.completed t ≠ Some true) (rows (tasks st))))
    ∧ (total = 0 → rate = Int 0)
    ∧ (0 < total →
       rate = Float (round2 (float_of_Z completed / float_of_Z total * 100)%float))
    ∧ (0 < total → ∀ s m e,
         Prim2SF (float_of_Z completed / float_of_Z total * 100)%float
         = S754_finite s m e →
         e < 0 →
         rate = Float (let r := (float_of_Z (hundredths m e) / 100)%float in
                       if s then (- r)%float else r)
         ∧ 2 * Z.abs (hundredths m e * 2 ^ (- e) - 100 * Z.pos m) ≤ 2 ^ (- e))
    ∧ (0 < total ≤ 200 →
       ∃ h, rate = Float (float_of_Z h / 100)%float
            ∧ 2 * Z.abs (h * total - 10000 * completed) ≤ total)
    ∧ (total = 3 → completed = 1 → rate = Float (3333 / 100)%float)
    ∧ (total = 160 → completed = 23 → rate = Float (1437 / 100)%float).
Proof.
  intros total completed. unfold stats, truediv. rewrite rows_length.
  fold total. fold completed. eexists. split; [done|].
  pose proof (length_filter (λ t, Task.completed t = Some true) (rows (tasks st))) as Hle.
  pose proof (filter_app_complement (λ t, Task.completed t = Some true)
                (rows (tasks st))) as Hperm.
  apply Permutation_length in Hperm. rewrite length_app in Hperm.
  rewrite rows_length in Hle, Hperm.
  split; [lia|]. split; [lia|].
  split; [by intros ->|].
  split. { intros Htotal. by rewrite (proj2 (Z.ltb_lt 0 total) Htotal). }
  split.
  { intros Htotal s m e Hx He. rewrite (proj2 (Z.ltb_lt 0 total) Htotal).
    split; [|by apply hundredths_nearest].
    simpl. unfold round2. rewrite Hx.
    by destruct (Z.leb_spec 0 e); [lia|]. }
  split.
  { intros [Htotal Hupto]. rewrite (proj2 (Z.ltb_lt 0 total) Htotal).
    destruct (rate_near_sound completed total) as (h & Hh & Hnear).
    { apply (rate_near_upto_spec 200); [apply rate_near_upto_200|lia|lia]. }
    exists h. split; [|done]. simpl. by rewrite Hh. }
  split; intros -> ->; by vm_compute.
Qed.

(** *** [Column.contains] *)










(** *** Listing *)

Section Listing.
Context `{Backend}.

#[local] Instance created_desc_total : Total created_desc.
Proof. intros t1 t2. unfold created_desc. lia. Qed.

#[local] Instance created_desc_trans : Transitive created_desc.
Proof. intros t1 t2 t3. unfold created_desc. lia. Qed.

Lemma filter_if {A} (P : A → Prop) `{!∀ x, Decision (P x)} (b : bool) (l : list A) :
  (if b then filter P l else l) = filter (λ x, b = true → P x) l.
Proof.
  destruct b.
  - apply list_filter_iff. naive_solver.
  - induction l as [|x l IH]; [done|].
    rewrite filter_cons_True by done. by rewrite <-IH.
Qed.

Lemma filter_from_option {A B} (P : B → A → Prop) `{!∀ v x, Decision (P v x)}
    (o : option B) (l : list A) :
  match o with Some v => filter (P v) l | None => l end
  = filter (λ x, from_option (λ v, P v x) True o) l.
Proof.
  destruct o as [v|]; simpl; [done|].
  induction l as [|x l IH]; [done|].
  rewrite filter_cons_True by done. by rewrite <-IH.
Qed.

Lemma search_filter search (q : list Task.row) :
  match search with
  | Some s =>
      if given search then filter (λ t, search_matches s t = true) q else q
  | None => q
  end
  = filter (λ t, from_option (λ s, s ≠ EmptyString → search_matches s t = true)
                   True search) q.
Proof.
  destruct search as [s|]; simpl.
  - rewrite filter_if. apply list_filter_iff. intros t.
    destruct (String.eqb_spec s EmptyString); simpl; naive_solver.
  - induction q as [|x q IH]; [done|].
    rewrite filter_cons_True by done. by rewrite <-IH.
Qed.

(** The chain of filters of [get_tasks] is one filter by [selects]. *)
Lemma query_filters category priority completed search (l : list Task.row) :
  (let query := l in
   let query :=
     if given category
     then filter (λ t, Task.category t = category) query else query in
   let query :=
     if given priority
     then filter (λ t, Task.priority t = priority) query else query in
   let query :=
     match completed with
     | Some completed =>
         let completed_bool := String.eqb (lower completed) "true" in
         filter (λ t, Task.completed t = Some completed_bool) query
     | None => query
     end in
   match search with
   | Some s =>
       if given search then filter (λ t, search_matches s t = true) query
       else query
   | None => query
   end)
  = filter (selects category priority completed search) l.
Proof.
  cbv zeta. rewrite search_filter, !filter_if.
  rewrite (filter_from_option
             (λ v t, Task.completed t = Some (String.eqb (lower v) "true"))).
  rewrite !list_filter_filter. apply list_filter_iff. intros t.
  unfold selects. tauto.
Qed.

Lemma get_tasks_sorted_filter category priority completed search st :
  get_tasks category priority completed search st
  = (let l := merge_sort created_desc
                (filter (selects category priority completed search)
                        (rows (tasks st))) in
     (TaskList (length l) l, 200)).
Proof.
  unfold get_tasks.
  pose proof (query_filters category priority completed search (rows (tasks st)))
    as Hq.
  cbv zeta in *. by rewrite Hq.
Qed.

Lemma elem_of_rows {A} (tbl : gmap Z A) r :
  r ∈ rows tbl ↔ ∃ k, tbl !! k = Some r.
Proof.
  unfold rows. rewrite list_elem_of_fmap. split.
  - intros ([k r'] & -> & Hin%elem_of_map_to_list). by exists k.
  - intros [k Hk]. exists (k, r). by rewrite elem_of_map_to_list.
Qed.



End Listing.

(** ** The theorems at concrete requests *)

Section Examples.
Import Sample.

(** C1 at [DELETE /api/tasks/9] on three tasks: no task 9, status 500. *)
Lemma delete_task_absent_example :
  tasks three_tasks !! 9 = None
  ∧ delete_task 9 three_tasks = (three_tasks, (Failure (Str NotFound), 500))
  ∧ size (tasks (delete_task 9 three_tasks).1) = size (tasks three_tasks).
Proof.
  assert (tasks three_tasks !! 9 = None) as Habsent by (vm_compute; reflexivity).
  split; [exact Habsent|]. exact (delete_task_absent 9 three_tasks Habsent).
Defined.

(** C2 at [PUT /api/tasks/2] with [{"due_date": "not-a-date"}]: status 500,
    the database as before. *)
Lemma update_task_invalid_date_example :
  tasks three_tasks !! 2 = Some task2
  ∧ fromisoformat (replace_Z "not-a-date") = None
  ∧ update_task 1000 2 (Json (JObj {[ "due_date" := JStr "not-a-date" ]})) three_tasks
    = (three_tasks, (Failure (Str ValueError), 500)).
Proof.
  assert (tasks three_tasks !! 2 = Some task2) as Ht by (vm_compute; reflexivity).
  assert (fromisoformat (replace_Z "not-a-date") = None) as Hs
    by (vm_compute; reflexivity).
  split; [exact Ht|]. split; [exact Hs|].
  apply (update_task_invalid_date 1000 2 three_tasks task2 _ "not-a-date" Ht).
  - apply lookup_singleton_eq.
  - discriminate.
  - exact Hs.
Defined.

(** C3 at [POST /api/categories] with [{"name": "Work"}] after startup. *)
Lemma create_category_duplicate_example :
  "Work" ∈ Category.name <$> rows (categories seeded)
  ∧ (create_category 1000 (Json (JObj {[ "name" := JStr "Work" ]})) seeded).1 = seeded
  ∧ success (create_category 1000 (Json (JObj {[ "name" := JStr "Work" ]})) seeded).2 = false
  ∧ create_category 1000 (Json (JObj {[ "name" := JStr "Work" ]})) seeded
    = (seeded, (Failure (Str IntegrityError), 500)).
Proof.
  assert ("Work" ∈ Category.name <$> rows (categories seeded)) as Hdup.
  { apply (bool_decide_unpack _). vm_compute. exact I. }
  split; [exact Hdup|].
  destruct (create_category_duplicate 1000 seeded {[ "name" := JStr "Work" ]} "Work"
              (lookup_singleton_eq _ _) Hdup) as (Hst & Hfail & Hconflict).
  split; [exact Hst|]. split; [exact Hfail|].
  apply Hconflict; [discriminate|]. left. apply lookup_singleton_ne. discriminate.
Defined.

(** C4 at [POST /api/tasks] with [{"title": "x"}], the clock at 7 for both
    readings. *)
Lemma create_task_defaults_example :
  ∃ t,
    create_task 7 7 (Json (JObj {[ "title" := JStr "x" ]})) three_tasks
    = (set_tasks (insert (Task.id t) t) three_tasks,
       (TaskMessage "Task created successfully" t, 201))
    ∧ Task.priority t = Some "medium"
    ∧ Task.category t = Some "general"
    ∧ Task.completed t = Some false
    ∧ Task.description t = Some EmptyString
    ∧ Task.created_at t = Task.updated_at t.
Proof.
  destruct (create_task_defaults 7 7 three_tasks "x" ltac:(discriminate))
    as (t & Hcreate & _ & _ & Hp & Hca & Hc & Hd & _ & _ & _ & Heq).
  exists t. repeat split; try assumption. apply Heq. reflexivity.
Defined.

(** The claim C4 states does not hold of the two readings 7 and 8: the task
    returned has [created_at] 7 and [updated_at] 8. *)
Lemma create_task_timestamps_differ :
  ∃ t,
    create_task 7 8 (Json (JObj {[ "title" := JStr "x" ]})) (Db ∅ ∅)
    = (Db {[ 1 := t ]} ∅, (TaskMessage "Task created successfully" t, 201))
    ∧ Task.priority t = Some "medium"
    ∧ Task.category t = Some "general"
    ∧ Task.completed t = Some false
    ∧ Task.description t = Some EmptyString
    ∧ Task.created_at t ≠ Task.updated_at t.
Proof.
  exists (Task.Row 1 "x" (Some EmptyString) (Some false) (Some "medium")
                   (Some "general") None 7 8).
  split; [vm_compute; reflexivity|]. by repeat split.
Qed.

(** C5 at [PUT /api/tasks/1] with [{"completed": true}]. *)
Lemma update_task_partial_example :
  tasks three_tasks !! 1 = Some task1
  ∧ update_task 1000 1 (Json (JObj {[ "completed" := JBool true ]})) three_tasks
    = (set_tasks (insert 1 (Task.Row 1 "Write report" (Some "quarterly") (Some true)
                              (Some "high") (Some "Work") None 100 1000))
         three_tasks,
       (TaskMessage "Task updated successfully"
          (Task.Row 1 "Write report" (Some "quarterly") (Some true)
             (Some "high") (Some "Work") None 100 1000), 200))
  ∧ tasks (update_task 1000 1 (Json (JObj {[ "completed" := JBool true ]}))
             three_tasks).1 !! 1
    = Some (Task.Row 1 "Write report" (Some "quarterly") (Some true)
              (Some "high") (Some "Work") None 100 1000).
Proof.
  assert (tasks three_tasks !! 1 = Some task1) as Ht by (vm_compute; reflexivity).
  split; [exact Ht|].
  destruct (proj1 (update_task_partial 1000 1 three_tasks task1 Ht))
    as (Hanswer & Hstored & _).
  split; [exact Hanswer|exact Hstored].
Defined.

(** C8 at [POST /api/tasks] with an empty [title]. *)
Lemma create_task_title_required_example :
  create_task 7 8 (Json (JObj {[ "title" := JStr EmptyString ]})) three_tasks
  = (three_tasks, (Failure (Msg "Title is required"), 400))
  ∧ size (tasks (create_task 7 8 (Json (JObj {[ "title" := JStr EmptyString ]}))
                   three_tasks).1)
    = size (tasks three_tasks).
Proof.
  apply (proj1 (create_task_title_required 7 8 three_tasks)). right.
  exists {[ "title" := JStr EmptyString ]}. split; [reflexivity|].
  right. left. apply lookup_singleton_eq.
Defined.

(** C10 at [PUT /api/tasks/3] with an empty [title]: the stored title is
    empty afterwards. *)
Lemma update_task_title_empty_example :
  tasks three_tasks !! 3 = Some task3
  ∧ tasks (update_task 1000 3 (Json (JObj {[ "title" := JStr EmptyString ]}))
             three_tasks).1 !! 3
    = Some (Task.Row 3 EmptyString None (Some false) (Some "high")
              (Some "Personal") (Some 5000) 300 1000).
Proof.
  assert (tasks three_tasks !! 3 = Some task3) as Ht by (vm_compute; reflexivity).
  split; [exact Ht|].
  exact (proj1 (proj2
    (update_task_title_any_string 1000 3 three_tasks task3 EmptyString Ht))).
Defined.

(** The claim C6 states does not hold of 160 tasks with 23 completed: the
    exact rate is 14.375, half way between two hundredths, and rounds to
    14.38; [stats] answers 14.37, the float product being below 14.375. *)
Lemma stats_rate_below_tie :
  stats (counted 160 23) = (Stats 160 23 137 (Float (1437 / 100)%float), 200)
  ∧ 2 * (10000 * 23) = (2 * 1437 + 1) * 160
  ∧ stated_completion_rate 23 160 = Float (1438 / 100)%float
  ∧ Float (1437 / 100)%float ≠ Float (1438 / 100)%float.
Proof.
  split; [by vm_compute|]. split; [done|]. split; [by vm_compute|].
  intros Heq.
  apply (f_equal (λ v, match v with Float x => Prim2SF x | Int _ => S754_nan end))
    in Heq.
  vm_compute in Heq. discriminate.
Qed.


End Examples.

(** ** The handlers, outcome by outcome *)

Section Outcomes.
Context `{Backend}.

Lemma insert_task_Return now_c now_u title description priority category due_date
    tbl t :
  insert_task now_c now_u title description priority category due_date tbl
  = Return t →
  Task.id t = next_id tbl
  ∧ bind_text title = Some (Some (Task.title t))
  ∧ bind_text description = Some (Task.description t)
  ∧ Task.completed t = Some false
  ∧ bind_text (or_default priority (JStr "medium")) = Some (Task.priority t)
  ∧ bind_text (or_default category (JStr "general")) = Some (Task.category t)
  ∧ Task.due_date t = due_date
  ∧ Task.created_at t = now_c
  ∧ Task.updated_at t = now_u.
Proof.
  unfold insert_task.
  destruct (bind_text title) as [[ti|]|]; try done.
  destruct (bind_text description) as [d|]; try done.
  destruct (bind_text (or_default priority _)) as [p|]; try done.
  destruct (bind_text (or_default category _)) as [ca|]; try done.
  simpl. by intros [= <-].
Qed.

(** What [create_task] can answer: 400 or 500 with the database as it was,
    or 201 with one row added under the next key. *)
Lemma create_task_cases now_c now_u req st :
  (∃ msg, create_task now_c now_u req st = (st, (Failure (Msg msg), 400)))
  ∨ (∃ e, create_task now_c now_u req st = (st, (Failure (Str e), 500)))
  ∨ (∃ t, create_task now_c now_u req st
          = (set_tasks (insert (next_id (tasks st)) t) st,
             (TaskMessage "Task created successfully" t, 201))
          ∧ Task.id t = next_id (tasks st)
          ∧ Task.completed t = Some false
          ∧ Task.created_at t = now_c
          ∧ Task.updated_at t = now_u).
Proof.
  unfold create_task, create_task_try.
  destruct req as [data| |]; cbn [get_json mbind py_bind];
    [|by right; left; eexists..].
  destruct (truthy data); cbn [mbind py_bind mret py_ret];
    [|by left; eexists].
  destruct (Py.get data "title") as [v|e]; cbn [mbind py_bind mret py_ret];
    [|by right; left; eexists].
  destruct (truthy v); cbn [negb]; [|by left; eexists].
  destruct (Py.get data "due_date") as [dd|e]; cbn [mbind py_bind mret py_ret];
    [|by right; left; eexists].
  assert (∀ due_date,
    (∃ e, except_Exception st
            (title ← getitem data "title";
             description ← get_d data "description" (JStr EmptyString);
             priority ← get_d data "priority" (JStr "medium");
             category ← get_d data "category" (JStr "general");
             task ← insert_task now_c now_u title description priority category
                      due_date (tasks st);
             mret (set_tasks (insert (Task.id task) task) st,
                   (TaskMessage "Task created successfully" task, 201)))
          = (st, (Failure (Str e), 500)))
    ∨ (∃ t, except_Exception st
              (title ← getitem data "title";
               description ← get_d data "description" (JStr EmptyString);
               priority ← get_d data "priority" (JStr "medium");
               category ← get_d data "category" (JStr "general");
               task ← insert_task now_c now_u title description priority category
                        due_date (tasks st);
               mret (set_tasks (insert (Task.id task) task) st,
                     (TaskMessage "Task created successfully" task, 201)))
            = (set_tasks (insert (next_id (tasks st)) t) st,
               (TaskMessage "Task created successfully" t, 201))
            ∧ Task.id t = next_id (tasks st)
            ∧ Task.completed t = Some false
            ∧ Task.created_at t = now_c
            ∧ Task.updated_at t = now_u)) as Hinsert.
  { intros due_date.
    destruct (getitem data "title") as [ti|e]; cbn [mbind py_bind];
      [|by left; eexists].
    destruct (get_d data "description" _) as [d|e]; cbn [mbind py_bind];
      [|by left; eexists].
    destruct (get_d data "priority" _) as [p|e]; cbn [mbind py_bind];
      [|by left; eexists].
    destruct (get_d data "category" _) as [ca|e]; cbn [mbind py_bind];
      [|by left; eexists].
    destruct (insert_task _ _ _ _ _ _ _ _) as [t|e] eqn:Hins; cbn [mbind py_bind];
      [|by left; eexists].
    apply insert_task_Return in Hins as (Hid & _ & _ & Hc & _ & _ & _ & Hcr & Hup).
    right. exists t. simpl. by rewrite Hid. }
  destruct (truthy dd).
  - destruct (parse_due_date data) as [d|e]; cbn [mbind py_bind mret py_ret].
    + destruct (Hinsert (Some d)) as [?|?]; [right; left|right; right]; done.
    + destruct e; cbn [mbind py_bind mret py_ret];
        first [by left; eexists | by right; left; eexists].
  - cbn [mbind py_bind mret py_ret].
    destruct (Hinsert None) as [?|?]; [right; left|right; right]; done.
Qed.

Lemma assign_keeps k set data o o' :
  (∀ v o, Task.o_id (set v o) = Task.o_id o
          ∧ Task.o_created_at (set v o) = Task.o_created_at o) →
  assign k set data o = Return o' →
  Task.o_id o' = Task.o_id o ∧ Task.o_created_at o' = Task.o_created_at o.
Proof.
  intros Hset. unfold assign.
  destruct (Py.contains k data) as [[]|]; cbn [mbind py_bind mret py_ret]; try done.
  - destruct (getitem data k) as [v|]; cbn [mbind py_bind mret py_ret]; [|done].
    intros [= <-]. apply Hset.
  - by intros [= <-].
Qed.

Lemma assign_due_date_keeps data o o' :
  assign_due_date data o = Return o' →
  Task.o_id o' = Task.o_id o ∧ Task.o_created_at o' = Task.o_created_at o.
Proof.
  unfold assign_due_date.
  destruct (Py.contains "due_date" data) as [[]|];
    cbn [mbind py_bind mret py_ret]; try done.
  - destruct (getitem data "due_date") as [v|]; cbn [mbind py_bind mret py_ret];
      [|done].
    destruct (truthy v).
    + destruct (parse_due_date data); cbn [mbind py_bind mret py_ret]; [|done].
      by intros [= <-].
    + by intros [= <-].
  - by intros [= <-].
Qed.

(** What [update_task] can answer: 500 with the database as it was, or 200
    with the row of the task replaced. *)
Lemma update_task_cases now task_id req st :
  (∃ e, update_task now task_id req st = (st, (Failure (Str e), 500)))
  ∨ (∃ t t',
       tasks st !! task_id = Some t
       ∧ update_task now task_id req st
         = (set_tasks (insert task_id t') st,
            (TaskMessage "Task updated successfully" t', 200))
       ∧ Task.id t' = Task.id t
       ∧ Task.created_at t' = Task.created_at t
       ∧ Task.updated_at t' = now).
Proof.
  unfold update_task, update_task_try, get_or_404.
  destruct (tasks st !! task_id) as [t|] eqn:Ht; cbn [mbind py_bind];
    [|by left; eexists].
  destruct req as [data| |]; cbn [get_json mbind py_bind]; [|by left; eexists..].
  destruct (assign "title" _ _ _) as [o1|] eqn:H1; cbn [mbind py_bind];
    [|by left; eexists].
  destruct (assign "description" _ _ _) as [o2|] eqn:H2; cbn [mbind py_bind];
    [|by left; eexists].
  destruct (assign "completed" _ _ _) as [o3|] eqn:H3; cbn [mbind py_bind];
    [|by left; eexists].
  destruct (assign "priority" _ _ _) as [o4|] eqn:H4; cbn [mbind py_bind];
    [|by left; eexists].
  destruct (assign "category" _ _ _) as [o5|] eqn:H5; cbn [mbind py_bind];
    [|by left; eexists].
  destruct (assign_due_date _ _) as [o6|] eqn:H6; cbn [mbind py_bind];
    [|by left; eexists].
  destruct (flush_task _) as [t'|] eqn:Hflush; cbn [mbind py_bind];
    [|by left; eexists].
  right. exists t, t'. split; [done|]. split; [done|].
  apply flush_task_Return in Hflush as (_ & _ & _ & _ & _ & Hid & _ & Hcr & Hup).
  apply assign_keeps in H1 as [? ?]; [|done].
  apply assign_keeps in H2 as [? ?]; [|done].
  apply assign_keeps in H3 as [? ?]; [|done].
  apply assign_keeps in H4 as [? ?]; [|done].
  apply assign_keeps in H5 as [? ?]; [|done].
  apply assign_due_date_keeps in H6 as [? ?].
  destruct o6; simpl in *. split_and!; congruence.
Qed.

Lemma insert_category_Return now name color tbl c :
  insert_category now name color tbl = Return c →
  Category.id c = next_id tbl
  ∧ bind_text name = Some (Some (Category.name c))
  ∧ bind_text (or_default color (JStr "#3B82F6")) = Some (Category.color c)
  ∧ (Category.name c ∉ Category.name <$> rows tbl)
  ∧ Category.created_at c = now.
Proof.
  unfold insert_category.
  destruct (bind_text name) as [[n|]|]; try done.
  destruct (bind_text (or_default color _)) as [co|]; try done.
  cbn [bind_param not_null mbind py_bind mret py_ret].
  case_bool_decide as Hin; [done|]. by intros [= <-].
Qed.

(** What [create_category] can answer: 400 or 500 with the database as it
    was, or 201 with one row added under the next key. *)
Lemma create_category_cases now req st :
  create_category now req st = (st, (Failure (Msg "Name is required"), 400))
  ∨ (∃ e, create_category now req st = (st, (Failure (Str e), 500)))
  ∨ (∃ c, create_category now req st
          = (set_categories (insert (next_id (categories st)) c) st,
             (CategoryBody c, 201))
          ∧ Category.id c = next_id (categories st)
          ∧ (Category.name c ∉ Category.name <$> rows (categories st))
          ∧ Category.created_at c = now).
Proof.
  unfold create_category, create_category_try.
  destruct req as [data| |]; cbn [get_json mbind py_bind];
    [|by right; left; eexists..].
  destruct (truthy data); cbn [mbind py_bind mret py_ret]; [|by left].
  destruct (Py.get data "name") as [v|e]; cbn [mbind py_bind mret py_ret];
    [|by right; left; eexists].
  destruct (truthy v); cbn [negb]; [|by left].
  destruct (getitem data "name") as [n|e]; cbn [mbind py_bind];
    [|by right; left; eexists].
  destruct (get_d data "color" _) as [co|e]; cbn [mbind py_bind];
    [|by right; left; eexists].
  destruct (insert_category _ _ _ _) as [c|e] eqn:Hins; cbn [mbind py_bind];
    [|by right; left; eexists].
  apply insert_category_Return in Hins as (Hid & _ & _ & Hnew & Hcr).
  right; right. exists c. simpl. by rewrite Hid.
Qed.

End Outcomes.

(** ** Further properties of the handlers *)

Section Further.
Context `{Backend}.

(** *** Reading a task *)

(** [get_task] answers 200 with the row stored under the id, and 404
    [Resource not found] when there is none: its [get_or_404] is not inside a
    [try], so the [NotFound] reaches the registered handler. *)
Lemma get_task_by_id task_id st :
  get_task task_id st
  = match tasks st !! task_id with
    | Some t => (TaskBody t, 200)
    | None => (Failure (Msg "Resource not found"), 404)
    end.
Proof. unfold get_task, get_or_404. by destruct (tasks st !! task_id). Qed.

(** *** Creating a task *)

Lemma truthy_JObj_lookup (m : gmap string json) k v :
  m !! k = Some v → truthy (JObj m) = true.
Proof.
  intros Hm. simpl. destruct (size m) eqn:Hsize; [|done].
  apply map_size_empty_iff in Hsize. by rewrite Hsize, lookup_empty in Hm.
Qed.

(** X2.  A payload whose [title] is a non-empty string, whose
    [description], [priority] and [category] are each absent or a string, and
    whose [due_date] is absent, the empty string, or a string that
    [fromisoformat] reads, is answered 201: the task takes the strings given,
    the empty description, [medium] and [general] for the absent ones, the
    date read, [completed] false whatever the payload says of it, and the next
    key of the table, which held nothing under it, then holds the task there,
    and has one task more. *)
Theorem create_task_stores_fields now_c now_u st (m : gmap string json)
    title description priority category due due_date :
  m !! "title" = Some (JStr title) →
  title ≠ EmptyString →
  m !! "description" = JStr <$> description →
  m !! "priority" = JStr <$> priority →
  m !! "category" = JStr <$> category →
  m !! "due_date" = JStr <$> due →
  (due = None ∧ due_date = None)
  ∨ (due = Some EmptyString ∧ due_date = None)
  ∨ (∃ s d, due = Some s ∧ s ≠ EmptyString
            ∧ fromisoformat (replace_Z s) = Some d ∧ due_date = Some d) →
  let t := Task.Row (next_id (tasks st)) title
             (Some (default EmptyString description)) (Some false)
             (Some (default "medium" priority)) (Some (default "general" category))
             due_date now_c now_u in
  create_task now_c now_u (Json (JObj m)) st
  = (set_tasks (insert (next_id (tasks st)) t) st,
     (TaskMessage "Task created successfully" t, 201))
  ∧ tasks st !! next_id (tasks st) = None
  ∧ tasks (create_task now_c now_u (Json (JObj m)) st).1 !! next_id (tasks st)
    = Some t
  ∧ size (tasks (create_task now_c now_u (Json (JObj m)) st).1)
    = S (size (tasks st)).
Proof.
  intros Hti Htitle%truthy_JStr Hd Hp Hca Hdue Hparse t.
  enough (create_task now_c now_u (Json (JObj m)) st
          = (set_tasks (insert (next_id (tasks st)) t) st,
             (TaskMessage "Task created successfully" t, 201))) as ->.
  { pose proof (next_id_fresh (tasks st)) as Hfresh.
    split; [done|]. split; [done|]. simpl.
    split; [apply lookup_insert_eq|by apply map_size_insert_None]. }
  unfold create_task, create_task_try, get_json. rewrite bind_Return.
  rewrite (truthy_JObj_lookup _ _ _ Hti).
  cbn [Py.get get_d getitem mbind py_bind mret py_ret].
  rewrite Hti, Hd, Hp, Hca, Hdue. cbn [default from_option id].
  rewrite Htitle. cbn [negb].
  assert (∀ due_date',
            due_date' = due_date →
            except_Exception st
              (insert_task now_c now_u (JStr title)
                 (default (JStr EmptyString) (JStr <$> description))
                 (default (JStr "medium") (JStr <$> priority))
                 (default (JStr "general") (JStr <$> category))
                 due_date' (tasks st)
               ≫= λ task, mret (set_tasks (insert (Task.id task) task) st,
                                (TaskMessage "Task created successfully" task, 201)))
            = (set_tasks (insert (next_id (tasks st)) t) st,
               (TaskMessage "Task created successfully" t, 201))) as Hinsert.
  { intros ? ->. unfold insert_task.
    destruct description, priority, category; simpl;
      by rewrite !bind_text_str. }
  destruct Hparse as [[-> ->]|[[-> ->]|(s & d & -> & Hs%truthy_JStr & Hd' & ->)]];
    cbn [fmap option_fmap option_map default from_option id truthy
         String.eqb negb mbind py_bind mret py_ret].
  - by apply Hinsert.
  - by apply Hinsert.
  - simpl in Hs. rewrite Hs.
    unfold parse_due_date, py_fromisoformat.
    cbn [getitem mbind py_bind]. rewrite Hdue.
    cbn [fmap option_fmap option_map Py.replace mbind py_bind]. rewrite Hd'.
    cbn [mbind py_bind mret py_ret]. by apply Hinsert.
Qed.

(** X3.  A body that is JSON but not an object, and not falsy — a non-empty
    array or string, a number other than 0, [true] — has no [get]: the
    [AttributeError] is answered 500, the database is as it was. *)
Theorem create_task_not_an_object now_c now_u data st :
  truthy data = true →
  (∀ m, data ≠ JObj m) →
  create_task now_c now_u (Json data) st = (st, (Failure (Str AttributeError), 500)).
Proof.
  intros Htruthy Hobj. unfold create_task, create_task_try, get_json. rewrite bind_Return. rewrite Htruthy.
  destruct data; try done. by destruct (Hobj m).
Qed.

(** X4.  Whatever the body, [create_task] either answers a failure with
    status 400 or 500 and leaves the database as it was, or answers 201 with a
    task that it has stored under a key the table did not hold: one task
    more, the categories and every task that was there untouched, and
    [get_task] on the new id answers that task. *)
Theorem create_task_outcome now_c now_u req st :
  let out := create_task now_c now_u req st in
  (out.1 = st ∧ success out.2 = false ∧ (out.2.2 = 400 ∨ out.2.2 = 500))
  ∨ (∃ t,
       out.2 = (TaskMessage "Task created successfully" t, 201)
       ∧ tasks st !! Task.id t = None
       ∧ tasks out.1 = <[Task.id t := t]> (tasks st)
       ∧ categories out.1 = categories st
       ∧ size (tasks out.1) = S (size (tasks st))
       ∧ get_task (Task.id t) out.1 = (TaskBody t, 200)
       ∧ ∀ k t0, tasks st !! k = Some t0 → get_task k out.1 = (TaskBody t0, 200)).
Proof.
  intros out. subst out.
  destruct (create_task_cases now_c now_u req st)
    as [[msg ->]|[[e ->]|(t & -> & Hid & _)]].
  - left. simpl. auto.
  - left. simpl. auto.
  - right. exists t. rewrite Hid. simpl.
    pose proof (next_id_fresh (tasks st)) as Hfresh.
    split; [done|]. split; [done|]. split; [done|]. split; [done|].
    split; [by apply map_size_insert_None|].
    split.
    + apply get_task_present. simpl. apply lookup_insert_eq.
    + intros k t0 Hk. apply get_task_present. simpl.
      rewrite lookup_insert_ne; [done|]. intros <-. congruence.
Qed.

(** *** Updating a task *)

(** X5.  Whatever the id and the body, [update_task] neither adds nor
    removes a task and leaves the categories and the other tasks alone.
    Either it answers 500 and the database is as it was — never 400, never
    404 — or the id is stored and it answers 200 with the row it has put in
    its place, which keeps [id] and [created_at], has the time of the update
    as [updated_at], and is what [get_task] then answers. *)
Theorem update_task_outcome now task_id req st :
  let out := update_task now task_id req st in
  categories out.1 = categories st
  ∧ size (tasks out.1) = size (tasks st)
  ∧ (∀ k, k ≠ task_id → tasks out.1 !! k = tasks st !! k)
  ∧ ((out.1 = st ∧ ∃ e, out.2 = (Failure (Str e), 500))
     ∨ (∃ t t',
          tasks st !! task_id = Some t
          ∧ out.2 = (TaskMessage "Task updated successfully" t', 200)
          ∧ tasks out.1 !! task_id = Some t'
          ∧ get_task task_id out.1 = (TaskBody t', 200)
          ∧ Task.id t' = Task.id t
          ∧ Task.created_at t' = Task.created_at t
          ∧ Task.updated_at t' = now)).
Proof.
  intros out. subst out.
  destruct (update_task_cases now task_id req st)
    as [[e ->]|(t & t' & Ht & -> & Hid & Hcr & Hup)]; simpl.
  - split; [done|]. split; [done|]. split; [done|]. left. eauto.
  - split; [done|]. split; [by apply map_size_insert_Some|].
    split; [by intros k Hk; apply lookup_insert_ne|].
    right. exists t, t'. split; [done|]. split; [done|].
    split; [apply lookup_insert_eq|].
    split; [apply get_task_present; simpl; apply lookup_insert_eq|]. done.
Qed.

Lemma assigned_only_due_date (m : gmap string json) o :
  m !! "title" = None → m !! "description" = None → m !! "completed" = None →
  m !! "priority" = None → m !! "category" = None →
  assigned m o = o.
Proof. intros. unfold assigned. destruct o. by simplify_option_eq. Qed.

Lemma update_task_due_date_answer now task_id st t :
  tasks st !! task_id = Some t →
  let result due_date :=
    Task.Row (Task.id t) (Task.title t) (Task.description t) (Task.completed t)
             (Task.priority t) (Task.category t) due_date (Task.created_at t) now in
  (∀ v, v = JNull ∨ v = JStr EmptyString →
        update_task now task_id (Json (JObj {[ "due_date" := v ]})) st
        = (set_tasks (insert task_id (result None)) st,
           (TaskMessage "Task updated successfully" (result None), 200)))
  ∧ (∀ s d, s ≠ EmptyString → fromisoformat (replace_Z s) = Some d →
            update_task now task_id (Json (JObj {[ "due_date" := JStr s ]})) st
            = (set_tasks (insert task_id (result (Some d))) st,
               (TaskMessage "Task updated successfully" (result (Some d)), 200))).
Proof.
  intros Ht result.
  assert (∀ v, assigned {[ "due_date" := v ]} (Task.load t) = Task.load t) as Hassigned.
  { intros v. by apply assigned_only_due_date; apply lookup_singleton_ne. }
  assert (∀ due_date,
            flush_task (Task.set_updated_at now (Task.set_due_date due_date (Task.load t)))
            = Return (result due_date)) as Hflush.
  { intros due_date. destruct t. apply flush_task_typed. }
  split.
  - intros v Hv. rewrite (update_task_JObj _ _ _ _ _ Ht), Hassigned.
    unfold assign_due_date. rewrite contains_JObj, lookup_singleton_eq.
    rewrite bool_decide_eq_true_2 by done.
    cbn [mbind py_bind getitem]. rewrite lookup_singleton_eq.
    cbn [mbind py_bind mret py_ret].
    destruct Hv as [-> | ->]; simpl truthy; cbn [mbind py_bind mret py_ret];
      by rewrite Hflush.
  - intros s d Hs%truthy_JStr Hd.
    rewrite (update_task_JObj _ _ _ _ _ Ht), Hassigned.
    unfold assign_due_date. rewrite contains_JObj, lookup_singleton_eq.
    rewrite bool_decide_eq_true_2 by done.
    cbn [mbind py_bind getitem]. rewrite lookup_singleton_eq.
    cbn [mbind py_bind mret py_ret]. rewrite Hs.
    unfold parse_due_date, py_fromisoformat. cbn [getitem mbind py_bind].
    rewrite lookup_singleton_eq. cbn [Py.replace mbind py_bind]. rewrite Hd.
    cbn [mbind py_bind mret py_ret]. by rewrite Hflush.
Qed.

(** X6.  On a stored task, the payload [{"due_date": v}] clears the due
    date when [v] is [null] or the empty string, and sets it to the date read
    when [v] is a non-empty string that [fromisoformat] reads; in both cases
    the answer is 200, only [due_date] and [updated_at] change, and the row
    answered is the row the table holds under the id afterwards. *)
Theorem update_task_due_date now task_id st t :
  tasks st !! task_id = Some t →
  let result due_date :=
    Task.Row (Task.id t) (Task.title t) (Task.description t) (Task.completed t)
             (Task.priority t) (Task.category t) due_date (Task.created_at t) now in
  (∀ v, v = JNull ∨ v = JStr EmptyString →
        (update_task now task_id (Json (JObj {[ "due_date" := v ]})) st).2
        = (TaskMessage "Task updated successfully" (result None), 200)
        ∧ tasks (update_task now task_id (Json (JObj {[ "due_date" := v ]})) st).1
            !! task_id
          = Some (result None))
  ∧ (∀ s d, s ≠ EmptyString → fromisoformat (replace_Z s) = Some d →
            (update_task now task_id (Json (JObj {[ "due_date" := JStr s ]})) st).2
            = (TaskMessage "Task updated successfully" (result (Some d)), 200)
            ∧ tasks (update_task now task_id
                       (Json (JObj {[ "due_date" := JStr s ]})) st).1 !! task_id
              = Some (result (Some d))).
Proof.
  intros Ht result.
  destruct (update_task_due_date_answer now task_id st t Ht) as [Hclear Hset].
  split.
  - intros v Hv. rewrite (Hclear v Hv). split; [done|]. simpl. apply lookup_insert_eq.
  - intros s d Hs Hd. rewrite (Hset s d Hs Hd). split; [done|]. simpl.
    apply lookup_insert_eq.
Qed.


(** X8.  A body that is [null], a boolean or a number cannot be searched for
    a key: on a stored task, [update_task] answers 500 with the [TypeError],
    and the database is as it was. *)
Theorem update_task_not_iterable now task_id data st t :
  tasks st !! task_id = Some t →
  data = JNull ∨ (∃ b, data = JBool b) ∨ (∃ n, data = JNum n) →
  update_task now task_id (Json data) st = (st, (Failure (Str TypeError), 500)).
Proof.
  intros Ht Hdata. unfold update_task, update_task_try, get_or_404. rewrite Ht.
  by destruct Hdata as [->|[[b ->]|[n ->]]].
Qed.

(** *** Deleting a task *)

(** X10.  Once a stored task is deleted, [get_task] on its id answers 404, a
    second [delete_task] answers 500 and changes nothing, and every other
    task is still answered by [get_task] as before. *)
Theorem delete_task_then task_id st t :
  tasks st !! task_id = Some t →
  let st' := (delete_task task_id st).1 in
  get_task task_id st' = not_found
  ∧ delete_task task_id st' = (st', (Failure (Str NotFound), 500))
  ∧ ∀ k, k ≠ task_id → get_task k st' = get_task k st.
Proof.
  intros Ht st'. subst st'.
  assert (delete_task task_id st
          = (set_tasks (delete task_id) st, (Message "Task deleted successfully", 200)))
    as ->.
  { unfold delete_task, delete_task_try, get_or_404. by rewrite Ht. }
  cbn [fst]. split; [|split].
  - apply get_task_absent. simpl. apply lookup_delete_eq.
  - unfold delete_task, delete_task_try, get_or_404. simpl.
    by rewrite lookup_delete_eq.
  - intros k Hk. unfold get_task, get_or_404. simpl.
    by rewrite lookup_delete_ne.
Qed.

(** *** Categories *)

Lemma rows_insert {A} (tbl : gmap Z A) k r :
  tbl !! k = None → rows (<[k := r]> tbl) ≡ₚ r :: rows tbl.
Proof. intros Hk. unfold rows. by rewrite map_to_list_insert. Qed.

(** X11.  A JSON body that is [null], or a dict whose [name] is absent, the
    empty string or [null], is answered 400 [Name is required]; no category
    is created. *)
Theorem create_category_name_required now data st :
  data = JNull ∨
  (∃ m : gmap string json,
     data = JObj m ∧
     (m !! "name" = None ∨ m !! "name" = Some (JStr EmptyString)
      ∨ m !! "name" = Some JNull)) →
  create_category now (Json data) st = (st, (Failure (Msg "Name is required"), 400)).
Proof.
  intros [->|(m & -> & Hname)]; [done|].
  unfold create_category, create_category_try, get_json. rewrite bind_Return.
  destruct (truthy (JObj m)); [|done].
  cbn [Py.get get_d mbind py_bind mret py_ret].
  by destruct Hname as [->|[->| ->]].
Qed.

(** X12.  A payload whose [name] is a non-empty string that no stored
    category has, and whose [color] is absent or a string, is answered 201
    with the category stored under the next key: it has the name, the color
    given or [#3B82F6], and the time of the request.  The listing that
    follows holds it and the categories that were there, each once. *)
Theorem create_category_new now st (m : gmap string json) name color :
  m !! "name" = Some (JStr name) →
  name ≠ EmptyString →
  name ∉ Category.name <$> rows (categories st) →
  m !! "color" = JStr <$> color →
  let c := Category.Row (next_id (categories st)) name
             (Some (default "#3B82F6" color)) now in
  create_category now (Json (JObj m)) st
  = (set_categories (insert (next_id (categories st)) c) st, (CategoryBody c, 201))
  ∧ ∃ l, get_categories (create_category now (Json (JObj m)) st).1 = (CategoryList l, 200)
         ∧ l ≡ₚ c :: rows (categories st).
Proof.
  intros Hname Hne%truthy_JStr Hnew Hcolor c.
  assert (create_category now (Json (JObj m)) st
          = (set_categories (insert (next_id (categories st)) c) st,
             (CategoryBody c, 201))) as ->.
  { unfold create_category, create_category_try, get_json. rewrite bind_Return.
    rewrite (truthy_JObj_lookup _ _ _ Hname).
    cbn [Py.get get_d getitem mbind py_bind mret py_ret].
    rewrite Hname, Hcolor. cbn [default from_option id]. rewrite Hne. cbn [negb].
    cbn [mbind py_bind]. unfold insert_category. rewrite bind_text_str.
    cbn [bind_param not_null mbind py_bind mret py_ret].
    assert (bind_text (or_default (default (JStr "#3B82F6") (JStr <$> color))
                         (JStr "#3B82F6"))
            = Some (Some (default "#3B82F6" color))) as ->.
    { destruct color; simpl; apply bind_text_str. }
    cbn [bind_param mbind py_bind mret py_ret].
    by rewrite (bool_decide_eq_false_2 _ Hnew). }
  split; [done|]. eexists. split; [done|]. simpl.
  apply rows_insert, next_id_fresh.
Qed.

(** X13.  Whatever the body, [create_category] either answers a failure
    with status 400 or 500 and leaves the database as it was, or answers 201
    with a category it has stored under a key the table did not hold, whose
    name no stored category had: one category more, the tasks and every
    category that was there untouched. *)
Theorem create_category_outcome now req st :
  let out := create_category now req st in
  (out.1 = st ∧ success out.2 = false ∧ (out.2.2 = 400 ∨ out.2.2 = 500))
  ∨ (∃ c,
       out.2 = (CategoryBody c, 201)
       ∧ categories st !! Category.id c = None
       ∧ (∀ k c0, categories st !! k = Some c0 → Category.name c0 ≠ Category.name c)
       ∧ categories out.1 = <[Category.id c := c]> (categories st)
       ∧ tasks out.1 = tasks st
       ∧ size (categories out.1) = S (size (categories st))
       ∧ Category.created_at c = now).
Proof.
  intros out. subst out.
  destruct (create_category_cases now req st)
    as [->|[[e ->]|(c & -> & Hid & Hnew & Hcr)]].
  - left. simpl. auto.
  - left. simpl. auto.
  - right. exists c. rewrite Hid. simpl.
    pose proof (next_id_fresh (categories st)) as Hfresh.
    split; [done|]. split; [done|].
    split.
    { intros k c0 Hk Heq. apply Hnew. rewrite <-Heq.
      apply list_elem_of_fmap. exists c0. split; [done|].
      apply elem_of_rows. by exists k. }
    split; [done|]. split; [done|].
    split; [by apply map_size_insert_None|done].
Qed.

(** *** Invariants *)

Lemma add_all_keyed now n l (tbl : gmap Z Category.row) :
  map_Forall (λ k c, Category.id c = k) tbl →
  map_Forall (λ k c, Category.id c = k) (add_all now n l tbl).
Proof.
  revert n tbl. induction l as [|[name color] l IH]; intros n tbl Htbl; [done|].
  simpl. apply IH. by apply map_Forall_insert_2.
Qed.

(** X14.  In a database where every task and every category is stored under
    its own [id], that is still so after any request that writes —
    [create_task], [update_task], [delete_task], [create_category] — and
    after a start. *)
Theorem well_keyed_preserved st :
  well_keyed st →
  (∀ now_c now_u req, well_keyed (create_task now_c now_u req st).1)
  ∧ (∀ now task_id req, well_keyed (update_task now task_id req st).1)
  ∧ (∀ task_id, well_keyed (delete_task task_id st).1)
  ∧ (∀ now req, well_keyed (create_category now req st).1)
  ∧ (∀ now, well_keyed (startup now st)).
Proof.
  intros [Htasks Hcats]. split_and!.
  - intros now_c now_u req.
    destruct (create_task_cases now_c now_u req st)
      as [[msg ->]|[[e ->]|(t & -> & Hid & _)]]; [done..|].
    split; [|done]. simpl. by apply map_Forall_insert_2.
  - intros now task_id req.
    destruct (update_task_cases now task_id req st)
      as [[e ->]|(t & t' & Ht & -> & Hid & _)]; [done|].
    split; [|done]. simpl. apply map_Forall_insert_2; [|done].
    rewrite Hid. by apply Htasks.
  - intros task_id. unfold delete_task, delete_task_try, get_or_404.
    destruct (tasks st !! task_id); [|done].
    split; [|done]. simpl. by apply map_Forall_delete.
  - intros now req.
    destruct (create_category_cases now req st)
      as [->|[[e ->]|(c & -> & Hid & _)]]; [done..|].
    split; [done|]. simpl. by apply map_Forall_insert_2.
  - intros now. unfold startup.
    destruct (Nat.eqb _ _); [|done].
    split; [done|]. unfold set_categories. cbn [categories].
    by apply add_all_keyed.
Qed.

(** X15.  In a database where no two categories have the same name, that is
    still so after any [create_category] and after a start; the other
    requests do not write to the [category] table. *)
Theorem unique_names_preserved st :
  unique_names st →
  (∀ now req, unique_names (create_category now req st).1)
  ∧ (∀ now, unique_names (startup now st))
  ∧ (∀ now_c now_u req, categories (create_task now_c now_u req st).1 = categories st)
  ∧ (∀ now task_id req, categories (update_task now task_id req st).1 = categories st)
  ∧ (∀ task_id, categories (delete_task task_id st).1 = categories st).
Proof.
  intros Hunique. split_and!.
  - intros now req.
    destruct (create_category_cases now req st)
      as [->|[[e ->]|(c & -> & Hid & Hnew & _)]]; [done..|].
    unfold unique_names. simpl.
    rewrite (rows_insert _ _ _ (next_id_fresh _)), fmap_cons.
    by apply NoDup_cons.
  - intros now. unfold startup.
    destruct (Nat.eqb_spec (size (categories st)) 0) as [Hsize|]; [|done].
    apply map_size_empty_iff in Hsize. unfold unique_names, set_categories.
    cbn [categories]. rewrite Hsize.
    vm_compute (Category.name <$> rows _).
    by apply (bool_decide_unpack _).
  - intros now_c now_u req.
    by destruct (create_task_cases now_c now_u req st)
      as [[msg ->]|[[e ->]|(t & -> & _)]].
  - intros now task_id req.
    by destruct (update_task_cases now task_id req st)
      as [[e ->]|(t & t' & _ & -> & _)].
  - intros task_id. unfold delete_task, delete_task_try, get_or_404.
    by destruct (tasks st !! task_id).
Qed.

(** *** Listings and statistics *)

Lemma filter_all {A} (P : A → Prop) `{!∀ x, Decision (P x)} (l : list A) :
  (∀ x, P x) → filter P l = l.
Proof.
  intros HP. induction l as [|x l IH]; [done|].
  by rewrite filter_cons_True, IH.
Qed.

Lemma filter_iff_in {A} (P Q : A → Prop)
    `{!∀ x, Decision (P x), !∀ x, Decision (Q x)} (l : list A) :
  (∀ x, x ∈ l → P x ↔ Q x) → filter P l = filter Q l.
Proof.
  induction l as [|x l IH]; intros HPQ; [done|].
  rewrite !filter_cons, IH by (intros y Hy; apply HPQ; by right).
  pose proof (HPQ x (list_elem_of_here _ _)) as Hx.
  destruct (decide (P x)), (decide (Q x)); tauto.
Qed.

Lemma count_of_get_tasks category priority completed search st :
  count_of (get_tasks category priority completed search st)
  = length (filter (selects category priority completed search) (rows (tasks st))).
Proof.
  rewrite get_tasks_sorted_filter. unfold count_of. cbn [fst].
  by rewrite merge_sort_Permutation.
Qed.

(** X16.  The numbers of [stats] are the counts of listings of the same
    database: [total_tasks] is the count of the listing without filters,
    [completed_tasks] that of the listing with [completed=true], and the
    listing with [completed=false] has at most [pending_tasks] tasks —
    exactly as many when no task has a NULL [completed]. *)
Theorem stats_agrees_with_listing st :
  ∃ total completed pending rate,
    stats st = (Stats total completed pending rate, 200)
    ∧ Z.of_nat (count_of (get_tasks None None None None st)) = total
    ∧ Z.of_nat (count_of (get_tasks None None (Some "true") None st)) = completed
    ∧ Z.of_nat (count_of (get_tasks None None (Some "false") None st)) ≤ pending
    ∧ ((∀ k t, tasks st !! k = Some t → Task.completed t ≠ None) →
       Z.of_nat (count_of (get_tasks None None (Some "false") None st)) = pending).
Proof.
  unfold stats. do 4 eexists. split; [done|].
  rewrite !count_of_get_tasks.
  set (l := rows (tasks st)).
  assert (filter (selects None None None None) l = l) as ->.
  { apply filter_all. intros t. by unfold selects. }
  assert (filter (selects None None (Some "true") None) l
          = filter (λ t, Task.completed t = Some true) l) as ->.
  { apply list_filter_iff. intros t. unfold selects. simpl.
    split; [by intros (_ & _ & ? & _)|by intros ?; split_and!]. }
  assert (filter (selects None None (Some "false") None) l
          = filter (λ t, Task.completed t = Some false) l) as ->.
  { apply list_filter_iff. intros t. unfold selects. simpl.
    split; [by intros (_ & _ & ? & _)|by intros ?; split_and!]. }
  pose proof (filter_app_complement (λ t, Task.completed t = Some true) l) as Hperm.
  apply Permutation_length in Hperm. rewrite length_app in Hperm.
  split; [done|]. split; [done|]. split.
  - rewrite <-(list_filter_filter_l (λ t, Task.completed t = Some false)
                 (λ t, Task.completed t ≠ Some true)) by congruence.
    pose proof (length_filter (λ t, Task.completed t = Some false)
                  (filter (λ t, Task.completed t ≠ Some true) l)).
    lia.
  - intros Hnull.
    assert (filter (λ t, Task.completed t = Some false) l
            = filter (λ t, Task.completed t ≠ Some true) l) as ->; [|lia].
    apply filter_iff_in. intros t [k Hk]%elem_of_rows.
    specialize (Hnull k t Hk). destruct (Task.completed t) as [[]|]; split; congruence.
Qed.

(** X17.  A listing with filters holds only tasks of the listing without
    filters, and no more of them. *)
Theorem get_tasks_narrows category priority completed search st :
  (∀ t, t ∈ listed (get_tasks category priority completed search st) →
        t ∈ listed (get_tasks None None None None st))
  ∧ (count_of (get_tasks category priority completed search st)
     ≤ count_of (get_tasks None None None None st))%nat
  ∧ count_of (get_tasks category priority completed search st)
    = length (listed (get_tasks category priority completed search st)).
Proof.
  rewrite !count_of_get_tasks, !get_tasks_sorted_filter. unfold listed. cbn [fst].
  assert (filter (selects None None None None) (rows (tasks st)) = rows (tasks st))
    as ->.
  { apply filter_all. intros t. by unfold selects. }
  split; [|split].
  - intros t. rewrite !merge_sort_Permutation. by intros [_ ?]%list_elem_of_filter.
  - apply length_filter.
  - by rewrite merge_sort_Permutation.
Qed.

(** *** A task sent back as it was answered *)

Lemma Task_to_dict_lookup isoformat t :
  Task_to_dict isoformat t !! "title" = Some (JStr (Task.title t))
  ∧ Task_to_dict isoformat t !! "description" = Some (Task.text (Task.description t))
  ∧ Task_to_dict isoformat t !! "completed" = Some (Task.boolean (Task.completed t))
  ∧ Task_to_dict isoformat t !! "priority" = Some (Task.text (Task.priority t))
  ∧ Task_to_dict isoformat t !! "category" = Some (Task.text (Task.category t))
  ∧ Task_to_dict isoformat t !! "due_date"
    = Some (from_option (λ d, JStr (isoformat d)) JNull (Task.due_date t)).
Proof. unfold Task_to_dict. simpl. by split_and!. Qed.

(** X18.  When a stored task's own [to_dict] is sent as the payload of
    [update_task], and [fromisoformat] reads the [isoformat] of its due date
    back, the answer is 200 and the task is stored as it was but for
    [updated_at]: the keys [id], [created_at] and [updated_at] of the payload
    are not looked at. *)
Theorem update_task_own_dict isoformat now task_id st t :
  tasks st !! task_id = Some t →
  (∀ d, Task.due_date t = Some d →
        isoformat d ≠ EmptyString
        ∧ fromisoformat (replace_Z (isoformat d)) = Some d) →
  let t' := Task.Row (Task.id t) (Task.title t) (Task.description t)
              (Task.completed t) (Task.priority t) (Task.category t)
              (Task.due_date t) (Task.created_at t) now in
  update_task now task_id (Json (JObj (Task_to_dict isoformat t))) st
  = (set_tasks (insert task_id t') st,
     (TaskMessage "Task updated successfully" t', 200)).
Proof.
  intros Ht Hiso t'.
  destruct (Task_to_dict_lookup isoformat t) as (Hti & Hd & Hc & Hp & Hca & Hdue).
  rewrite (update_task_JObj _ _ _ _ _ Ht).
  assert (assigned (Task_to_dict isoformat t) (Task.load t) = Task.load t) as ->.
  { unfold assigned. rewrite Hti, Hd, Hc, Hp, Hca. by destruct t. }
  assert (assign_due_date (JObj (Task_to_dict isoformat t)) (Task.load t)
          = Return (Task.load t)) as ->.
  { unfold assign_due_date. rewrite contains_JObj, Hdue.
    rewrite bool_decide_eq_true_2 by done.
    cbn [mbind py_bind getitem]. rewrite Hdue. cbn [mbind py_bind].
    destruct (Task.due_date t) as [d|] eqn:Hd'; cbn [from_option].
    - destruct (Hiso d eq_refl) as [Hne%truthy_JStr Hparse]. rewrite Hne.
      unfold parse_due_date, py_fromisoformat. cbn [getitem mbind py_bind].
      rewrite Hdue. cbn [from_option Py.replace mbind py_bind]. rewrite Hparse.
      cbn [mbind py_bind mret py_ret]. destruct t. simpl in *. by subst.
    - simpl. destruct t. simpl in *. by subst. }
  cbn [mbind py_bind].
  assert (flush_task (Task.set_updated_at now (Task.load t)) = Return t') as ->; [|done].
  subst t'. destruct t. apply flush_task_typed.
Qed.

(** *** The [Z] of a due date *)

Lemma replace_Z_app s1 s2 :
  replace_Z (String.append s1 s2) = String.append (replace_Z s1) (replace_Z s2).
Proof.
  induction s1 as [|c s1 IH]; [done|]. simpl. rewrite IH.
  by destruct (Ascii.eqb c "Z").
Qed.

(** X19.  Before it is parsed, every [Z] of a [due_date] string is replaced
    by [+00:00], wherever it stands, not only a last one. *)
Theorem parse_due_date_every_Z (m : gmap string json) s1 s2 :
  m !! "due_date" = Some (JStr (String.append s1 (String "Z" s2))) →
  parse_due_date (JObj m)
  = py_fromisoformat
      (String.append (replace_Z s1) (String.append "+00:00" (replace_Z s2))).
Proof.
  intros Hm. unfold parse_due_date. cbn [getitem mbind py_bind]. rewrite Hm.
  cbn [Py.replace mbind py_bind]. by rewrite replace_Z_app.
Qed.

(** *** A request without a JSON document *)

(** X23.  When [request.get_json()] raises — the body sent as JSON is empty
    or does not parse, or the request is not sent as JSON — [create_task]
    and [create_category] answer 500 with the exception's text, and so does
    [update_task] on a stored task: none of them answers 400, and the
    database is as it was. *)
Theorem get_json_raises now_c now_u task_id req e st :
  get_json req = Raise e →
  create_task now_c now_u req st = (st, (Failure (Str e), 500))
  ∧ create_category now_c req st = (st, (Failure (Str e), 500))
  ∧ (is_Some (tasks st !! task_id) →
     update_task now_c task_id req st = (st, (Failure (Str e), 500))).
Proof.
  intros Hreq. split; [|split].
  - unfold create_task, create_task_try. by rewrite Hreq.
  - unfold create_category, create_category_try. by rewrite Hreq.
  - intros [t Ht]. unfold update_task, update_task_try, get_or_404. rewrite Ht.
    cbn [mbind py_bind]. by rewrite Hreq.
Qed.

End Further.

(** ** The further properties at concrete requests *)

Section FurtherExamples.
Import Sample.

(** X1 at [POST /api/tasks] with a title and the due date [soon]. *)
Lemma create_task_invalid_date_example :
  create_task 7 8 (Json (JObj (<[ "due_date" := JStr "soon" ]> {[ "title" := JStr "x" ]})))
    three_tasks
  = (three_tasks, (Failure (Msg "Invalid date format"), 400)).
Proof.
  apply (create_task_invalid_date 7 8 three_tasks _ "soon").
  - vm_compute. reflexivity.
  - apply lookup_insert_eq.
  - discriminate.
  - vm_compute. reflexivity.
Defined.

(** X2 at [POST /api/tasks] with a title, a priority and a due date. *)
Lemma create_task_stores_fields_example :
  (create_task 7 8
     (Json (JObj (<[ "due_date" := JStr "2024-02-29" ]>
                    (<[ "priority" := JStr "high" ]> {[ "title" := JStr "x" ]}))))
     three_tasks).2
  = (TaskMessage "Task created successfully"
       (Task.Row 4 "x" (Some EmptyString) (Some false) (Some "high")
          (Some "general") (Some 1709164800000000) 7 8), 201)
  ∧ tasks (create_task 7 8
             (Json (JObj (<[ "due_date" := JStr "2024-02-29" ]>
                            (<[ "priority" := JStr "high" ]>
                               {[ "title" := JStr "x" ]}))))
             three_tasks).1 !! 4
    = Some (Task.Row 4 "x" (Some EmptyString) (Some false) (Some "high")
              (Some "general") (Some 1709164800000000) 7 8).
Proof.
  destruct (create_task_stores_fields 7 8 three_tasks
              (<[ "due_date" := JStr "2024-02-29" ]>
                 (<[ "priority" := JStr "high" ]> {[ "title" := JStr "x" ]}))
              "x" None (Some "high") None
              (Some "2024-02-29") (Some 1709164800000000))
    as (Hanswer & _ & Hstored & _).
  - vm_compute. reflexivity.
  - discriminate.
  - vm_compute. reflexivity.
  - vm_compute. reflexivity.
  - vm_compute. reflexivity.
  - vm_compute. reflexivity.
  - right. right. exists "2024-02-29", 1709164800000000.
    split; [reflexivity|]. split; [discriminate|].
    split; [vm_compute; reflexivity|reflexivity].
  - rewrite Hanswer. split; [reflexivity|]. exact Hstored.
Defined.

(** X3 at [POST /api/tasks] with the body [[1]]. *)
Lemma create_task_not_an_object_example :
  create_task 7 8 (Json (JArr [JNum 1])) three_tasks
  = (three_tasks, (Failure (Str AttributeError), 500)).
Proof.
  apply create_task_not_an_object; [reflexivity|discriminate].
Defined.

(** X6 at [PUT /api/tasks/3]: the due date cleared, then set. *)
Lemma update_task_due_date_example :
  tasks three_tasks !! 3 = Some task3
  ∧ tasks (update_task 1000 3 (Json (JObj {[ "due_date" := JNull ]})) three_tasks).1
      !! 3
    = Some (Task.Row 3 "Call home" None (Some false) (Some "high")
              (Some "Personal") None 300 1000)
  ∧ tasks (update_task 1000 3 (Json (JObj {[ "due_date" := JStr "2024-02-29" ]}))
             three_tasks).1 !! 3
    = Some (Task.Row 3 "Call home" None (Some false) (Some "high")
              (Some "Personal") (Some 1709164800000000) 300 1000).
Proof.
  assert (tasks three_tasks !! 3 = Some task3) as Ht by (vm_compute; reflexivity).
  split; [exact Ht|].
  destruct (update_task_due_date 1000 3 three_tasks task3 Ht) as [Hclear Hset].
  split.
  - apply (Hclear JNull). left. reflexivity.
  - apply (Hset "2024-02-29" 1709164800000000); [discriminate|].
    vm_compute. reflexivity.
Defined.


(** X8 at [PUT /api/tasks/1] with the body [null]. *)
Lemma update_task_not_iterable_example :
  tasks three_tasks !! 1 = Some task1
  ∧ update_task 1000 1 (Json JNull) three_tasks = (three_tasks, (Failure (Str TypeError), 500)).
Proof.
  assert (tasks three_tasks !! 1 = Some task1) as Ht by (vm_compute; reflexivity).
  split; [exact Ht|].
  apply (update_task_not_iterable 1000 1 JNull three_tasks task1 Ht).
  left. reflexivity.
Defined.

(** X9 at [PUT /api/tasks/9]. *)
Lemma update_task_absent_example :
  tasks three_tasks !! 9 = None
  ∧ update_task 1000 9 (Json (JObj {[ "completed" := JBool true ]})) three_tasks
    = (three_tasks, (Failure (Str NotFound), 500)).
Proof.
  assert (tasks three_tasks !! 9 = None) as Ht by (vm_compute; reflexivity).
  split; [exact Ht|]. exact (update_task_absent 1000 9 _ three_tasks Ht).
Defined.

(** X10 at [DELETE /api/tasks/2], then [GET] and [DELETE] again. *)
Lemma delete_task_then_example :
  tasks three_tasks !! 2 = Some task2
  ∧ get_task 2 (delete_task 2 three_tasks).1 = not_found
  ∧ delete_task 2 (delete_task 2 three_tasks).1
    = ((delete_task 2 three_tasks).1, (Failure (Str NotFound), 500))
  ∧ get_task 1 (delete_task 2 three_tasks).1 = (TaskBody task1, 200).
Proof.
  assert (tasks three_tasks !! 2 = Some task2) as Ht by (vm_compute; reflexivity).
  split; [exact Ht|].
  destruct (delete_task_then 2 three_tasks task2 Ht) as (Hget & Hdel & Hothers).
  split; [exact Hget|]. split; [exact Hdel|].
  rewrite (Hothers 1) by discriminate. vm_compute. reflexivity.
Defined.

(** X20 at [DELETE /api/tasks/2]. *)
Lemma delete_task_present_example :
  tasks three_tasks !! 2 = Some task2
  ∧ delete_task 2 three_tasks
    = (set_tasks (delete 2) three_tasks, (Message "Task deleted successfully", 200))
  ∧ size (tasks (delete_task 2 three_tasks).1) = 2%nat.
Proof.
  assert (tasks three_tasks !! 2 = Some task2) as Ht by (vm_compute; reflexivity).
  split; [exact Ht|].
  destruct (delete_task_present 2 three_tasks task2 Ht) as (Hdel & _ & Hsize & _).
  split; [exact Hdel|].
  assert (size (tasks three_tasks) = 3%nat) as Hthree by (vm_compute; reflexivity).
  apply eq_add_S. rewrite Hsize. exact Hthree.
Defined.

(** X11 at [POST /api/categories] with an empty name. *)
Lemma create_category_name_required_example :
  create_category 1000 (Json (JObj {[ "name" := JStr EmptyString ]})) seeded
  = (seeded, (Failure (Msg "Name is required"), 400)).
Proof.
  apply create_category_name_required. right.
  exists {[ "name" := JStr EmptyString ]}. split; [reflexivity|].
  right. left. apply lookup_singleton_eq.
Defined.

(** X12 at [POST /api/categories] with the name [Errands] after startup. *)
Lemma create_category_new_example :
  create_category 1000 (Json (JObj {[ "name" := JStr "Errands" ]})) seeded
  = (set_categories (insert 6 (Category.Row 6 "Errands" (Some "#3B82F6") 1000)) seeded,
     (CategoryBody (Category.Row 6 "Errands" (Some "#3B82F6") 1000), 201)).
Proof.
  refine (proj1 (create_category_new 1000 seeded {[ "name" := JStr "Errands" ]}
                   "Errands" None _ _ _ _)).
  - apply lookup_singleton_eq.
  - discriminate.
  - apply (bool_decide_unpack _). vm_compute. exact I.
  - apply lookup_singleton_ne. discriminate.
Defined.

(** X14 on the three tasks: each is stored under its id, and still so after
    a task is created. *)
Lemma well_keyed_preserved_example :
  well_keyed three_tasks
  ∧ well_keyed (create_task 7 8 (Json (JObj {[ "title" := JStr "x" ]})) three_tasks).1.
Proof.
  assert (well_keyed three_tasks) as Hwf.
  { split; apply (bool_decide_unpack _); vm_compute; exact I. }
  split; [exact Hwf|].
  exact (proj1 (well_keyed_preserved three_tasks Hwf) 7 8 _).
Defined.

(** X15 on the categories of a first start. *)
Lemma unique_names_preserved_example :
  unique_names seeded
  ∧ unique_names (create_category 1000 (Json (JObj {[ "name" := JStr "Errands" ]})) seeded).1.
Proof.
  assert (unique_names seeded) as Hunique.
  { apply (bool_decide_unpack _). vm_compute. exact I. }
  split; [exact Hunique|].
  exact (proj1 (unique_names_preserved seeded Hunique) 1000 _).
Defined.

(** X18 on a task due on 2024-02-29, with dates written [YYYY-MM-DD]. *)
Lemma update_task_own_dict_example :
  update_task 1000 4 (Json (JObj (Task_to_dict date_isoformat task4))) (Db {[ 4 := task4 ]} ∅)
  = (Db {[ 4 := Task.Row 4 "File taxes" (Some "forms") (Some false) None
                  (Some "Work") (Some 1709164800000000) 400 1000 ]} ∅,
     (TaskMessage "Task updated successfully"
        (Task.Row 4 "File taxes" (Some "forms") (Some false) None
           (Some "Work") (Some 1709164800000000) 400 1000), 200)).
Proof.
  assert (update_task 1000 4 (Json (JObj (Task_to_dict date_isoformat task4)))
            (Db {[ 4 := task4 ]} ∅)
          = (set_tasks (insert 4 (Task.Row 4 "File taxes" (Some "forms") (Some false)
                                   None (Some "Work") (Some 1709164800000000) 400 1000))
               (Db {[ 4 := task4 ]} ∅),
             (TaskMessage "Task updated successfully"
                (Task.Row 4 "File taxes" (Some "forms") (Some false) None
                   (Some "Work") (Some 1709164800000000) 400 1000), 200))) as ->.
  { apply (update_task_own_dict date_isoformat 1000 4 (Db {[ 4 := task4 ]} ∅) task4).
    - apply lookup_singleton_eq.
    - intros d [= <-]. split; [discriminate|]. vm_compute. reflexivity. }
  unfold set_tasks. cbn [tasks categories]. by rewrite insert_singleton_eq.
Defined.

(** X19 on the due date [2024-01-01T00:00:00Z]. *)
Lemma parse_due_date_every_Z_example :
  parse_due_date (JObj {[ "due_date" := JStr "2024-01-01T00:00:00Z" ]})
  = py_fromisoformat "2024-01-01T00:00:00+00:00".
Proof.
  exact (parse_due_date_every_Z {[ "due_date" := JStr "2024-01-01T00:00:00Z" ]}
           "2024-01-01T00:00:00" EmptyString (lookup_singleton_eq _ _)).
Defined.

(** X23 at a request sent as JSON with an empty body. *)
Lemma get_json_raises_example :
  create_task 7 8 BadJson three_tasks
  = (three_tasks, (Failure (Str BadRequest), 500))
  ∧ create_category 7 BadJson three_tasks
    = (three_tasks, (Failure (Str BadRequest), 500))
  ∧ update_task 7 1 BadJson three_tasks
    = (three_tasks, (Failure (Str BadRequest), 500)).
Proof.
  destruct (get_json_raises 7 8 1 BadJson BadRequest three_tasks eq_refl)
    as (Htask & Hcategory & Hupdate).
  split; [exact Htask|]. split; [exact Hcategory|].
  apply Hupdate. exists task1. vm_compute. reflexivity.
Defined.

End FurtherExamples.
